(** * Capybara word game: the game session state machine of the home page

    The page component [Home] keeps the whole game in React state hooks and
    changes it from four places: the [startGame] callback, the [onGuess]
    callback, the power-up pair [handlePowerUp] / power-up effect, and the
    inline handler of the Reset button.  This development embeds those
    handlers, together with the part of React they rely on:

    - a handler runs against the values captured by its closure and queues
      state updates, which are applied in order (a functional update reads
      the pending value, a plain update overwrites it);
    - after the batch the component renders: [useCallback] re-creates
      [onGuess] when one of its dependencies changed, and [useEffect] re-runs
      the power-up effect when one of its dependencies changed;
    - arrays and objects are compared by identity in dependency lists, so
      every array or object state carries the identity of the value stored.

    Numbers are JavaScript numbers holding small integers and are embedded
    as [Z] (counters, score, lives) or [nat] (array indices).  Words are
    taken over the ASCII alphabet.  The network is outside: the answer of
    the word fetch and the random draws are parameters of the events, the
    calls to [saveAchievement] and [saveScore] are recorded, and the
    achievements loaded at sign-in are not modelled (the list starts
    empty). *)

From Stdlib Require Import ZArith String Ascii List Lia.
From stdpp Require Import base decidable option list gmap strings pretty.

Local Open Scope string_scope.
Local Open Scope list_scope.
Local Open Scope Z_scope.

(** ** Enumerations of the page *)

(** [mode]: 'solo' | 'multi'. *)
Inductive Mode : Type := solo | multi.

(** [phase]: setup | play | finished. *)
Inductive Phase : Type := setup | play | finished.

(** Values of the [guessed] object: 'correct' | 'wrong'. *)
Inductive Status : Type := correct | wrong.

(** [result] (solo): 'win' | 'lose'. *)
Inductive Result : Type := win | lose.

(** Keys of [POWER_UPS]. *)
Inductive PowerUpKind : Type := doublePoints | revealLetter | extraLife.

(** Keys of [ACHIEVEMENTS], in the order of the object literal. *)
Inductive AchievementId : Type :=
  | firstWin | perfectGame | streak5 | streak10
  | perfectStreak3 | perfectStreak5 | perfectStreak10
  | highScore | megaScore | speedster | powerMaster
  | wordsmith | scholar | multiplierMania | detective
  | survivor | comeback.

#[global] Instance Mode_eq_dec : EqDecision Mode.
Proof. solve_decision. Defined.
#[global] Instance Phase_eq_dec : EqDecision Phase.
Proof. solve_decision. Defined.
#[global] Instance Status_eq_dec : EqDecision Status.
Proof. solve_decision. Defined.
#[global] Instance Result_eq_dec : EqDecision Result.
Proof. solve_decision. Defined.
#[global] Instance PowerUpKind_eq_dec : EqDecision PowerUpKind.
Proof. solve_decision. Defined.
#[global] Instance AchievementId_eq_dec : EqDecision AchievementId.
Proof. solve_decision. Defined.

(** [const MAX_LIVES = 6]. *)
Definition MAX_LIVES : Z := 6.

(** [const POOL = ["doublePoints", "revealLetter", "extraLife"]]. *)
Definition POOL : list PowerUpKind := [doublePoints; revealLetter; extraLife].

(** All keys of [ACHIEVEMENTS]. *)
Definition ACHIEVEMENTS : list AchievementId :=
  [firstWin; perfectGame; streak5; streak10; perfectStreak3; perfectStreak5;
   perfectStreak10; highScore; megaScore; speedster; powerMaster; wordsmith;
   scholar; multiplierMania; detective; survivor; comeback].

(** ** The state hooks

    One field per [useState] of [Home] that the game logic reads or writes
    (the text inputs [nameInput], [soloName] and the fetch selector [source]
    are left out).  [playersId], [revealedId] and [guessedId] are the
    identities of the array or object currently stored: a setter that stores
    a freshly built value moves the identity on. *)
Record Store : Type := mkStore {
  mode : Mode;
  players : list string;
  playersId : nat;
  phase : Phase;
  currentIdx : nat;
  word : string;
  displayRaw : string;
  meaning : string;
  revealed : list bool;
  revealedId : nat;
  guessed : gmap ascii Status;
  guessedId : nat;
  winner : option string;
  result : option Result;
  error : option string;
  powerUp : option PowerUpKind;
  lives : Z;
  score : Z;
  streak : Z;
  scoreMultiplier : Z;
  perfectStreak : Z;
  achievements : list AchievementId;
  showAchievement : option AchievementId;
  powerUpsUsed : Z;
  wordsCompleted : Z;
  doublePointsUsed : Z;
  revealLetterUsed : Z;
  availablePowerUps : list PowerUpKind
}.

Definition upd_mode (f : Mode -> Mode) (s : Store) : Store :=
  {| mode := f (mode s); players := players s; playersId := playersId s;
     phase := phase s; currentIdx := currentIdx s; word := word s;
     displayRaw := displayRaw s; meaning := meaning s;
     revealed := revealed s; revealedId := revealedId s;
     guessed := guessed s; guessedId := guessedId s; winner := winner s;
     result := result s; error := error s; powerUp := powerUp s;
     lives := lives s; score := score s; streak := streak s;
     scoreMultiplier := scoreMultiplier s; perfectStreak := perfectStreak s;
     achievements := achievements s; showAchievement := showAchievement s;
     powerUpsUsed := powerUpsUsed s; wordsCompleted := wordsCompleted s;
     doublePointsUsed := doublePointsUsed s;
     revealLetterUsed := revealLetterUsed s;
     availablePowerUps := availablePowerUps s |}.

Definition upd_players (f : list string -> list string) (s : Store) : Store :=
  {| mode := mode s; players := f (players s); playersId := S (playersId s);
     phase := phase s; currentIdx := currentIdx s; word := word s;
     displayRaw := displayRaw s; meaning := meaning s;
     revealed := revealed s; revealedId := revealedId s;
     guessed := guessed s; guessedId := guessedId s; winner := winner s;
     result := result s; error := error s; powerUp := powerUp s;
     lives := lives s; score := score s; streak := streak s;
     scoreMultiplier := scoreMultiplier s; perfectStreak := perfectStreak s;
     achievements := achievements s; showAchievement := showAchievement s;
     powerUpsUsed := powerUpsUsed s; wordsCompleted := wordsCompleted s;
     doublePointsUsed := doublePointsUsed s;
     revealLetterUsed := revealLetterUsed s;
     availablePowerUps := availablePowerUps s |}.

Definition upd_phase (f : Phase -> Phase) (s : Store) : Store :=
  {| mode := mode s; players := players s; playersId := playersId s;
     phase := f (phase s); currentIdx := currentIdx s; word := word s;
     displayRaw := displayRaw s; meaning := meaning s;
     revealed := revealed s; revealedId := revealedId s;
     guessed := guessed s; guessedId := guessedId s; winner := winner s;
     result := result s; error := error s; powerUp := powerUp s;
     lives := lives s; score := score s; streak := streak s;
     scoreMultiplier := scoreMultiplier s; perfectStreak := perfectStreak s;
     achievements := achievements s; showAchievement := showAchievement s;
     powerUpsUsed := powerUpsUsed s; wordsCompleted := wordsCompleted s;
     doublePointsUsed := doublePointsUsed s;
     revealLetterUsed := revealLetterUsed s;
     availablePowerUps := availablePowerUps s |}.

Definition upd_currentIdx (f : nat -> nat) (s : Store) : Store :=
  {| mode := mode s; players := players s; playersId := playersId s;
     phase := phase s; currentIdx := f (currentIdx s); word := word s;
     displayRaw := displayRaw s; meaning := meaning s;
     revealed := revealed s; revealedId := revealedId s;
     guessed := guessed s; guessedId := guessedId s; winner := winner s;
     result := result s; error := error s; powerUp := powerUp s;
     lives := lives s; score := score s; streak := streak s;
     scoreMultiplier := scoreMultiplier s; perfectStreak := perfectStreak s;
     achievements := achievements s; showAchievement := showAchievement s;
     powerUpsUsed := powerUpsUsed s; wordsCompleted := wordsCompleted s;
     doublePointsUsed := doublePointsUsed s;
     revealLetterUsed := revealLetterUsed s;
     availablePowerUps := availablePowerUps s |}.

Definition upd_word (f : string -> string) (s : Store) : Store :=
  {| mode := mode s; players := players s; playersId := playersId s;
     phase := phase s; currentIdx := currentIdx s; word := f (word s);
     displayRaw := displayRaw s; meaning := meaning s;
     revealed := revealed s; revealedId := revealedId s;
     guessed := guessed s; guessedId := guessedId s; winner := winner s;
     result := result s; error := error s; powerUp := powerUp s;
     lives := lives s; score := score s; streak := streak s;
     scoreMultiplier := scoreMultiplier s; perfectStreak := perfectStreak s;
     achievements := achievements s; showAchievement := showAchievement s;
     powerUpsUsed := powerUpsUsed s; wordsCompleted := wordsCompleted s;
     doublePointsUsed := doublePointsUsed s;
     revealLetterUsed := revealLetterUsed s;
     availablePowerUps := availablePowerUps s |}.

Definition upd_displayRaw (f : string -> string) (s : Store) : Store :=
  {| mode := mode s; players := players s; playersId := playersId s;
     phase := phase s; currentIdx := currentIdx s; word := word s;
     displayRaw := f (displayRaw s); meaning := meaning s;
     revealed := revealed s; revealedId := revealedId s;
     guessed := guessed s; guessedId := guessedId s; winner := winner s;
     result := result s; error := error s; powerUp := powerUp s;
     lives := lives s; score := score s; streak := streak s;
     scoreMultiplier := scoreMultiplier s; perfectStreak := perfectStreak s;
     achievements := achievements s; showAchievement := showAchievement s;
     powerUpsUsed := powerUpsUsed s; wordsCompleted := wordsCompleted s;
     doublePointsUsed := doublePointsUsed s;
     revealLetterUsed := revealLetterUsed s;
     availablePowerUps := availablePowerUps s |}.

Definition upd_meaning (f : string -> string) (s : Store) : Store :=
  {| mode := mode s; players := players s; playersId := playersId s;
     phase := phase s; currentIdx := currentIdx s; word := word s;
     displayRaw := displayRaw s; meaning := f (meaning s);
     revealed := revealed s; revealedId := revealedId s;
     guessed := guessed s; guessedId := guessedId s; winner := winner s;
     result := result s; error := error s; powerUp := powerUp s;
     lives := lives s; score := score s; streak := streak s;
     scoreMultiplier := scoreMultiplier s; perfectStreak := perfectStreak s;
     achievements := achievements s; showAchievement := showAchievement s;
     powerUpsUsed := powerUpsUsed s; wordsCompleted := wordsCompleted s;
     doublePointsUsed := doublePointsUsed s;
     revealLetterUsed := revealLetterUsed s;
     availablePowerUps := availablePowerUps s |}.

Definition upd_revealed (f : list bool -> list bool) (s : Store) : Store :=
  {| mode := mode s; players := players s; playersId := playersId s;
     phase := phase s; currentIdx := currentIdx s; word := word s;
     displayRaw := displayRaw s; meaning := meaning s;
     revealed := f (revealed s); revealedId := S (revealedId s);
     guessed := guessed s; guessedId := guessedId s; winner := winner s;
     result := result s; error := error s; powerUp := powerUp s;
     lives := lives s; score := score s; streak := streak s;
     scoreMultiplier := scoreMultiplier s; perfectStreak := perfectStreak s;
     achievements := achievements s; showAchievement := showAchievement s;
     powerUpsUsed := powerUpsUsed s; wordsCompleted := wordsCompleted s;
     doublePointsUsed := doublePointsUsed s;
     revealLetterUsed := revealLetterUsed s;
     availablePowerUps := availablePowerUps s |}.

Definition upd_guessed (f : gmap ascii Status -> gmap ascii Status) (s : Store) : Store :=
  {| mode := mode s; players := players s; playersId := playersId s;
     phase := phase s; currentIdx := currentIdx s; word := word s;
     displayRaw := displayRaw s; meaning := meaning s;
     revealed := revealed s; revealedId := revealedId s;
     guessed := f (guessed s); guessedId := S (guessedId s);
     winner := winner s; result := result s; error := error s;
     powerUp := powerUp s; lives := lives s; score := score s;
     streak := streak s; scoreMultiplier := scoreMultiplier s;
     perfectStreak := perfectStreak s; achievements := achievements s;
     showAchievement := showAchievement s; powerUpsUsed := powerUpsUsed s;
     wordsCompleted := wordsCompleted s;
     doublePointsUsed := doublePointsUsed s;
     revealLetterUsed := revealLetterUsed s;
     availablePowerUps := availablePowerUps s |}.

Definition upd_winner (f : option string -> option string) (s : Store) : Store :=
  {| mode := mode s; players := players s; playersId := playersId s;
     phase := phase s; currentIdx := currentIdx s; word := word s;
     displayRaw := displayRaw s; meaning := meaning s;
     revealed := revealed s; revealedId := revealedId s;
     guessed := guessed s; guessedId := guessedId s; winner := f (winner s);
     result := result s; error := error s; powerUp := powerUp s;
     lives := lives s; score := score s; streak := streak s;
     scoreMultiplier := scoreMultiplier s; perfectStreak := perfectStreak s;
     achievements := achievements s; showAchievement := showAchievement s;
     powerUpsUsed := powerUpsUsed s; wordsCompleted := wordsCompleted s;
     doublePointsUsed := doublePointsUsed s;
     revealLetterUsed := revealLetterUsed s;
     availablePowerUps := availablePowerUps s |}.

Definition upd_result (f : option Result -> option Result) (s : Store) : Store :=
  {| mode := mode s; players := players s; playersId := playersId s;
     phase := phase s; currentIdx := currentIdx s; word := word s;
     displayRaw := displayRaw s; meaning := meaning s;
     revealed := revealed s; revealedId := revealedId s;
     guessed := guessed s; guessedId := guessedId s; winner := winner s;
     result := f (result s); error := error s; powerUp := powerUp s;
     lives := lives s; score := score s; streak := streak s;
     scoreMultiplier := scoreMultiplier s; perfectStreak := perfectStreak s;
     achievements := achievements s; showAchievement := showAchievement s;
     powerUpsUsed := powerUpsUsed s; wordsCompleted := wordsCompleted s;
     doublePointsUsed := doublePointsUsed s;
     revealLetterUsed := revealLetterUsed s;
     availablePowerUps := availablePowerUps s |}.

Definition upd_error (f : option string -> option string) (s : Store) : Store :=
  {| mode := mode s; players := players s; playersId := playersId s;
     phase := phase s; currentIdx := currentIdx s; word := word s;
     displayRaw := displayRaw s; meaning := meaning s;
     revealed := revealed s; revealedId := revealedId s;
     guessed := guessed s; guessedId := guessedId s; winner := winner s;
     result := result s; error := f (error s); powerUp := powerUp s;
     lives := lives s; score := score s; streak := streak s;
     scoreMultiplier := scoreMultiplier s; perfectStreak := perfectStreak s;
     achievements := achievements s; showAchievement := showAchievement s;
     powerUpsUsed := powerUpsUsed s; wordsCompleted := wordsCompleted s;
     doublePointsUsed := doublePointsUsed s;
     revealLetterUsed := revealLetterUsed s;
     availablePowerUps := availablePowerUps s |}.

Definition upd_powerUp (f : option PowerUpKind -> option PowerUpKind) (s : Store) : Store :=
  {| mode := mode s; players := players s; playersId := playersId s;
     phase := phase s; currentIdx := currentIdx s; word := word s;
     displayRaw := displayRaw s; meaning := meaning s;
     revealed := revealed s; revealedId := revealedId s;
     guessed := guessed s; guessedId := guessedId s; winner := winner s;
     result := result s; error := error s; powerUp := f (powerUp s);
     lives := lives s; score := score s; streak := streak s;
     scoreMultiplier := scoreMultiplier s; perfectStreak := perfectStreak s;
     achievements := achievements s; showAchievement := showAchievement s;
     powerUpsUsed := powerUpsUsed s; wordsCompleted := wordsCompleted s;
     doublePointsUsed := doublePointsUsed s;
     revealLetterUsed := revealLetterUsed s;
     availablePowerUps := availablePowerUps s |}.

Definition upd_lives (f : Z -> Z) (s : Store) : Store :=
  {| mode := mode s; players := players s; playersId := playersId s;
     phase := phase s; currentIdx := currentIdx s; word := word s;
     displayRaw := displayRaw s; meaning := meaning s;
     revealed := revealed s; revealedId := revealedId s;
     guessed := guessed s; guessedId := guessedId s; winner := winner s;
     result := result s; error := error s; powerUp := powerUp s;
     lives := f (lives s); score := score s; streak := streak s;
     scoreMultiplier := scoreMultiplier s; perfectStreak := perfectStreak s;
     achievements := achievements s; showAchievement := showAchievement s;
     powerUpsUsed := powerUpsUsed s; wordsCompleted := wordsCompleted s;
     doublePointsUsed := doublePointsUsed s;
     revealLetterUsed := revealLetterUsed s;
     availablePowerUps := availablePowerUps s |}.

Definition upd_score (f : Z -> Z) (s : Store) : Store :=
  {| mode := mode s; players := players s; playersId := playersId s;
     phase := phase s; currentIdx := currentIdx s; word := word s;
     displayRaw := displayRaw s; meaning := meaning s;
     revealed := revealed s; revealedId := revealedId s;
     guessed := guessed s; guessedId := guessedId s; winner := winner s;
     result := result s; error := error s; powerUp := powerUp s;
     lives := lives s; score := f (score s); streak := streak s;
     scoreMultiplier := scoreMultiplier s; perfectStreak := perfectStreak s;
     achievements := achievements s; showAchievement := showAchievement s;
     powerUpsUsed := powerUpsUsed s; wordsCompleted := wordsCompleted s;
     doublePointsUsed := doublePointsUsed s;
     revealLetterUsed := revealLetterUsed s;
     availablePowerUps := availablePowerUps s |}.

Definition upd_streak (f : Z -> Z) (s : Store) : Store :=
  {| mode := mode s; players := players s; playersId := playersId s;
     phase := phase s; currentIdx := currentIdx s; word := word s;
     displayRaw := displayRaw s; meaning := meaning s;
     revealed := revealed s; revealedId := revealedId s;
     guessed := guessed s; guessedId := guessedId s; winner := winner s;
     result := result s; error := error s; powerUp := powerUp s;
     lives := lives s; score := score s; streak := f (streak s);
     scoreMultiplier := scoreMultiplier s; perfectStreak := perfectStreak s;
     achievements := achievements s; showAchievement := showAchievement s;
     powerUpsUsed := powerUpsUsed s; wordsCompleted := wordsCompleted s;
     doublePointsUsed := doublePointsUsed s;
     revealLetterUsed := revealLetterUsed s;
     availablePowerUps := availablePowerUps s |}.

Definition upd_scoreMultiplier (f : Z -> Z) (s : Store) : Store :=
  {| mode := mode s; players := players s; playersId := playersId s;
     phase := phase s; currentIdx := currentIdx s; word := word s;
     displayRaw := displayRaw s; meaning := meaning s;
     revealed := revealed s; revealedId := revealedId s;
     guessed := guessed s; guessedId := guessedId s; winner := winner s;
     result := result s; error := error s; powerUp := powerUp s;
     lives := lives s; score := score s; streak := streak s;
     scoreMultiplier := f (scoreMultiplier s);
     perfectStreak := perfectStreak s; achievements := achievements s;
     showAchievement := showAchievement s; powerUpsUsed := powerUpsUsed s;
     wordsCompleted := wordsCompleted s;
     doublePointsUsed := doublePointsUsed s;
     revealLetterUsed := revealLetterUsed s;
     availablePowerUps := availablePowerUps s |}.

Definition upd_perfectStreak (f : Z -> Z) (s : Store) : Store :=
  {| mode := mode s; players := players s; playersId := playersId s;
     phase := phase s; currentIdx := currentIdx s; word := word s;
     displayRaw := displayRaw s; meaning := meaning s;
     revealed := revealed s; revealedId := revealedId s;
     guessed := guessed s; guessedId := guessedId s; winner := winner s;
     result := result s; error := error s; powerUp := powerUp s;
     lives := lives s; score := score s; streak := streak s;
     scoreMultiplier := scoreMultiplier s;
     perfectStreak := f (perfectStreak s); achievements := achievements s;
     showAchievement := showAchievement s; powerUpsUsed := powerUpsUsed s;
     wordsCompleted := wordsCompleted s;
     doublePointsUsed := doublePointsUsed s;
     revealLetterUsed := revealLetterUsed s;
     availablePowerUps := availablePowerUps s |}.

Definition upd_achievements (f : list AchievementId -> list AchievementId) (s : Store) : Store :=
  {| mode := mode s; players := players s; playersId := playersId s;
     phase := phase s; currentIdx := currentIdx s; word := word s;
     displayRaw := displayRaw s; meaning := meaning s;
     revealed := revealed s; revealedId := revealedId s;
     guessed := guessed s; guessedId := guessedId s; winner := winner s;
     result := result s; error := error s; powerUp := powerUp s;
     lives := lives s; score := score s; streak := streak s;
     scoreMultiplier := scoreMultiplier s; perfectStreak := perfectStreak s;
     achievements := f (achievements s);
     showAchievement := showAchievement s; powerUpsUsed := powerUpsUsed s;
     wordsCompleted := wordsCompleted s;
     doublePointsUsed := doublePointsUsed s;
     revealLetterUsed := revealLetterUsed s;
     availablePowerUps := availablePowerUps s |}.

Definition upd_showAchievement (f : option AchievementId -> option AchievementId) (s : Store) : Store :=
  {| mode := mode s; players := players s; playersId := playersId s;
     phase := phase s; currentIdx := currentIdx s; word := word s;
     displayRaw := displayRaw s; meaning := meaning s;
     revealed := revealed s; revealedId := revealedId s;
     guessed := guessed s; guessedId := guessedId s; winner := winner s;
     result := result s; error := error s; powerUp := powerUp s;
     lives := lives s; score := score s; streak := streak s;
     scoreMultiplier := scoreMultiplier s; perfectStreak := perfectStreak s;
     achievements := achievements s;
     showAchievement := f (showAchievement s);
     powerUpsUsed := powerUpsUsed s; wordsCompleted := wordsCompleted s;
     doublePointsUsed := doublePointsUsed s;
     revealLetterUsed := revealLetterUsed s;
     availablePowerUps := availablePowerUps s |}.

Definition upd_powerUpsUsed (f : Z -> Z) (s : Store) : Store :=
  {| mode := mode s; players := players s; playersId := playersId s;
     phase := phase s; currentIdx := currentIdx s; word := word s;
     displayRaw := displayRaw s; meaning := meaning s;
     revealed := revealed s; revealedId := revealedId s;
     guessed := guessed s; guessedId := guessedId s; winner := winner s;
     result := result s; error := error s; powerUp := powerUp s;
     lives := lives s; score := score s; streak := streak s;
     scoreMultiplier := scoreMultiplier s; perfectStreak := perfectStreak s;
     achievements := achievements s; showAchievement := showAchievement s;
     powerUpsUsed := f (powerUpsUsed s); wordsCompleted := wordsCompleted s;
     doublePointsUsed := doublePointsUsed s;
     revealLetterUsed := revealLetterUsed s;
     availablePowerUps := availablePowerUps s |}.

Definition upd_wordsCompleted (f : Z -> Z) (s : Store) : Store :=
  {| mode := mode s; players := players s; playersId := playersId s;
     phase := phase s; currentIdx := currentIdx s; word := word s;
     displayRaw := displayRaw s; meaning := meaning s;
     revealed := revealed s; revealedId := revealedId s;
     guessed := guessed s; guessedId := guessedId s; winner := winner s;
     result := result s; error := error s; powerUp := powerUp s;
     lives := lives s; score := score s; streak := streak s;
     scoreMultiplier := scoreMultiplier s; perfectStreak := perfectStreak s;
     achievements := achievements s; showAchievement := showAchievement s;
     powerUpsUsed := powerUpsUsed s; wordsCompleted := f (wordsCompleted s);
     doublePointsUsed := doublePointsUsed s;
     revealLetterUsed := revealLetterUsed s;
     availablePowerUps := availablePowerUps s |}.

Definition upd_doublePointsUsed (f : Z -> Z) (s : Store) : Store :=
  {| mode := mode s; players := players s; playersId := playersId s;
     phase := phase s; currentIdx := currentIdx s; word := word s;
     displayRaw := displayRaw s; meaning := meaning s;
     revealed := revealed s; revealedId := revealedId s;
     guessed := guessed s; guessedId := guessedId s; winner := winner s;
     result := result s; error := error s; powerUp := powerUp s;
     lives := lives s; score := score s; streak := streak s;
     scoreMultiplier := scoreMultiplier s; perfectStreak := perfectStreak s;
     achievements := achievements s; showAchievement := showAchievement s;
     powerUpsUsed := powerUpsUsed s; wordsCompleted := wordsCompleted s;
     doublePointsUsed := f (doublePointsUsed s);
     revealLetterUsed := revealLetterUsed s;
     availablePowerUps := availablePowerUps s |}.

Definition upd_revealLetterUsed (f : Z -> Z) (s : Store) : Store :=
  {| mode := mode s; players := players s; playersId := playersId s;
     phase := phase s; currentIdx := currentIdx s; word := word s;
     displayRaw := displayRaw s; meaning := meaning s;
     revealed := revealed s; revealedId := revealedId s;
     guessed := guessed s; guessedId := guessedId s; winner := winner s;
     result := result s; error := error s; powerUp := powerUp s;
     lives := lives s; score := score s; streak := streak s;
     scoreMultiplier := scoreMultiplier s; perfectStreak := perfectStreak s;
     achievements := achievements s; showAchievement := showAchievement s;
     powerUpsUsed := powerUpsUsed s; wordsCompleted := wordsCompleted s;
     doublePointsUsed := doublePointsUsed s;
     revealLetterUsed := f (revealLetterUsed s);
     availablePowerUps := availablePowerUps s |}.

Definition upd_availablePowerUps (f : list PowerUpKind -> list PowerUpKind) (s : Store) : Store :=
  {| mode := mode s; players := players s; playersId := playersId s;
     phase := phase s; currentIdx := currentIdx s; word := word s;
     displayRaw := displayRaw s; meaning := meaning s;
     revealed := revealed s; revealedId := revealedId s;
     guessed := guessed s; guessedId := guessedId s; winner := winner s;
     result := result s; error := error s; powerUp := powerUp s;
     lives := lives s; score := score s; streak := streak s;
     scoreMultiplier := scoreMultiplier s; perfectStreak := perfectStreak s;
     achievements := achievements s; showAchievement := showAchievement s;
     powerUpsUsed := powerUpsUsed s; wordsCompleted := wordsCompleted s;
     doublePointsUsed := doublePointsUsed s;
     revealLetterUsed := revealLetterUsed s;
     availablePowerUps := f (availablePowerUps s) |}.

(** ** JavaScript helpers *)

Module Js.

(** [String.prototype.toLowerCase] on one ASCII character. *)
Definition toLowerCase (c : ascii) : ascii :=
  let n := N_of_ascii c in
  if ((65 <=? n) && (n <=? 90))%N then ascii_of_N (n + 32) else c.

(** [arr[i] = v].  In range this is the list update.  Past the end
    JavaScript grows the array and leaves holes, which read as [undefined]:
    they are written here as [false] (an approximation, since [every]
    skips holes).  The handlers never write past the end in a reachable
    state: see [matchIndices_lt], [findIndex_Some] and [inv_length]. *)
Definition array_set (i : nat) (v : bool) (arr : list bool) : list bool :=
  if (i <? length arr)%nat then <[i := v]> arr
  else arr ++ replicate (i - length arr) false ++ [v].

(** [arr.findIndex(p)], with [None] for [-1]. *)
Fixpoint findIndex {A} (p : A -> bool) (arr : list A) : option nat :=
  match arr with
  | [] => None
  | x :: rest => if p x then Some 0%nat else S <$> findIndex p rest
  end.

(** [arr.every(Boolean)] on an array of booleans. *)
Definition every (arr : list bool) : bool := forallb (fun b => b) arr.

(** [Array.from({ length: n }, () => v)]. *)
Definition array_from (n : nat) (v : bool) : list bool := replicate n v.

(** [arr.filter((_, i) => i !== idx)]. *)
Definition filter_index {A} (idx : nat) (arr : list A) : list A :=
  delete idx arr.

End Js.

(** ** The component between two events *)

(** Calls that leave the component: [saveAchievement(id)] and
    [saveScore(finalScore, finalStreak)]. *)
Inductive Call : Type :=
  | SaveAchievement (id : AchievementId)
  | SaveScore (finalScore finalStreak : Z).

(** [store] holds the hooks.  [guessEnv] holds the values of the render in
    which the current [onGuess] callback was created: the callback, and the
    [checkAchievements] it captured, read their free variables there.
    [multiplierTimer] tells whether the 30 s timeout of the power-up effect
    is pending, [toastTimers] counts the pending 4 s timeouts that hide the
    achievement notification, [calls] lists the outgoing calls, latest
    last. *)
Record App : Type := mkApp {
  store : Store;
  guessEnv : Store;
  multiplierTimer : bool;
  toastTimers : nat;
  calls : list Call
}.

(** A handler is a sequence of effects on the pending state. *)
Definition Handler : Type := App -> App.

Definition skip : Handler := fun a => a.

Definition andThen (h1 h2 : Handler) : Handler := fun a => h2 (h1 a).

Notation "h1 >>> h2" := (andThen h1 h2) (at level 61, left associativity).

Definition when (b : bool) (h : Handler) : Handler := if b then h else skip.

Definition onStore (u : Store -> Store) : Handler := fun a =>
  {| store := u (store a); guessEnv := guessEnv a;
     multiplierTimer := multiplierTimer a; toastTimers := toastTimers a;
     calls := calls a |}.

(** The plain form [setX(v)] of a state setter. *)
Definition val {A} (v : A) : A -> A := fun _ => v.

Definition setMode f : Handler := onStore (upd_mode f).
Definition setPlayers f : Handler := onStore (upd_players f).
Definition setPhase f : Handler := onStore (upd_phase f).
Definition setCurrentIdx f : Handler := onStore (upd_currentIdx f).
Definition setWord f : Handler := onStore (upd_word f).
Definition setDisplayRaw f : Handler := onStore (upd_displayRaw f).
Definition setMeaning f : Handler := onStore (upd_meaning f).
Definition setRevealed f : Handler := onStore (upd_revealed f).
Definition setGuessed f : Handler := onStore (upd_guessed f).
Definition setWinner f : Handler := onStore (upd_winner f).
Definition setResult f : Handler := onStore (upd_result f).
Definition setError f : Handler := onStore (upd_error f).
Definition setPowerUp f : Handler := onStore (upd_powerUp f).
Definition setLives f : Handler := onStore (upd_lives f).
Definition setScore f : Handler := onStore (upd_score f).
Definition setStreak f : Handler := onStore (upd_streak f).
Definition setScoreMultiplier f : Handler := onStore (upd_scoreMultiplier f).
Definition setPerfectStreak f : Handler := onStore (upd_perfectStreak f).
Definition setAchievements f : Handler := onStore (upd_achievements f).
Definition setShowAchievement f : Handler := onStore (upd_showAchievement f).
Definition setPowerUpsUsed f : Handler := onStore (upd_powerUpsUsed f).
Definition setWordsCompleted f : Handler := onStore (upd_wordsCompleted f).
Definition setDoublePointsUsed f : Handler := onStore (upd_doublePointsUsed f).
Definition setRevealLetterUsed f : Handler := onStore (upd_revealLetterUsed f).
Definition setAvailablePowerUps f : Handler := onStore (upd_availablePowerUps f).
Definition emit (c : Call) : Handler := fun a =>
  {| store := store a; guessEnv := guessEnv a;
     multiplierTimer := multiplierTimer a; toastTimers := toastTimers a;
     calls := calls a ++ [c] |}.

Definition emitAll (cs : list Call) : Handler := fun a =>
  fold_left (fun acc c => emit c acc) cs a.

(** [setTimeout(() => setShowAchievement(null), 4000)]. *)
Definition startToastTimer : Handler := fun a =>
  {| store := store a; guessEnv := guessEnv a;
     multiplierTimer := multiplierTimer a; toastTimers := S (toastTimers a);
     calls := calls a |}.

(** [setTimeout(() => setScoreMultiplier(1), 30000)] and the
    [clearTimeout] of the effect's clean-up. *)
Definition setMultiplierTimer (b : bool) : Handler := fun a =>
  {| store := store a; guessEnv := guessEnv a;
     multiplierTimer := b; toastTimers := toastTimers a;
     calls := calls a |}.

(** ** [checkAchievements] *)

Record GameData : Type := mkGameData {
  won : bool;
  perfect : bool;
  finalScore : Z;
  livesRemaining : Z
}.

(** [if (cond) newAchievements.push(id)]. *)
Definition push (cond : bool) (id : AchievementId)
    (acc : list AchievementId) : list AchievementId :=
  if cond then acc ++ [id] else acc.

(** The array [newAchievements] built by [checkAchievements]; [e] holds
    the values captured by the callback. *)
Definition newAchievements (e : Store) (gameData : GameData)
    : list AchievementId :=
  let includes id := bool_decide (id ∈ achievements e) in
  let n := [] in
  (* First win *)
  let n := push (bool_decide (streak e = 0) && won gameData
                 && negb (includes firstWin)) firstWin n in
  (* Perfect game (no wrong guesses) *)
  let n := push (perfect gameData && negb (includes perfectGame))
             perfectGame n in
  (* Streak achievements *)
  let n :=
    if won gameData then
      let n := push ((5 <=? streak e + 1) && negb (includes streak5))
                 streak5 n in
      let n := push ((10 <=? streak e + 1) && negb (includes streak10))
                 streak10 n in
      if perfect gameData then
        let n := push ((3 <=? perfectStreak e + 1)
                       && negb (includes perfectStreak3)) perfectStreak3 n in
        let n := push ((5 <=? perfectStreak e + 1)
                       && negb (includes perfectStreak5)) perfectStreak5 n in
        push ((10 <=? perfectStreak e + 1)
              && negb (includes perfectStreak10)) perfectStreak10 n
      else n
    else n in
  (* Score achievements *)
  let n := push ((500 <=? finalScore gameData) && negb (includes highScore))
             highScore n in
  let n := push ((1000 <=? finalScore gameData) && negb (includes megaScore))
             megaScore n in
  (* Speedster (win with all lives) *)
  let n := push (won gameData && bool_decide (lives e = MAX_LIVES)
                 && negb (includes speedster)) speedster n in
  (* Survivor (win with only 1 life left) *)
  let n := push (won gameData && bool_decide (lives e = 1)
                 && negb (includes survivor)) survivor n in
  (* Power-up achievements *)
  let n := push ((10 <=? powerUpsUsed e) && negb (includes powerMaster))
             powerMaster n in
  (* Word count achievements *)
  let n :=
    if won gameData then
      let newWordCount := wordsCompleted e + 1 in
      let n := push ((25 <=? newWordCount) && negb (includes wordsmith))
                 wordsmith n in
      push ((100 <=? newWordCount) && negb (includes scholar)) scholar n
    else n in
  (* Specific power-up usage achievements *)
  let n := push ((5 <=? doublePointsUsed e) && negb (includes multiplierMania))
             multiplierMania n in
  push ((10 <=? revealLetterUsed e) && negb (includes detective)) detective n.

Definition checkAchievements (e : Store) (gameData : GameData) : Handler :=
  let new := newAchievements e gameData in
  when (0 <? length new)%nat
    (setAchievements (fun prev => prev ++ new) >>>
     setShowAchievement (val (head new)) >>>
     startToastTimer >>>
     emitAll (SaveAchievement <$> new)).

(** ** [onGuess] *)

(** The loop that collects [matchIdx]: the indices [i] with
    [word[i] === ch]. *)
Definition matchIndices (w : string) (ch : ascii) : list nat :=
  filter (fun i => String.get i w = Some ch) (seq 0%nat (String.length w)).

(** [Object.values(guessed).filter(status => status === "wrong").length]. *)
Definition wrongGuesses (g : gmap ascii Status) : nat :=
  length (filter (fun status => status = wrong) (snd <$> map_to_list g)).

(** The updater passed to [setAvailablePowerUps] after a solo win; [rnd]
    stands for the draw [Math.floor(Math.random() * remaining.length)]. *)
Definition grantReward (rnd : nat) (prev : list PowerUpKind)
    : list PowerUpKind :=
  let remaining := filter (fun p => p ∉ prev) POOL in
  if bool_decide (length remaining = 0%nat) then prev
  else match remaining !! (rnd mod length remaining)%nat with
       | Some reward => prev ++ [reward]
       | None => prev
       end.

(** [players[currentIdx] ?? `Player ${currentIdx + 1}`]. *)
Definition winnerName (ps : list string) (idx : nat) : string :=
  default ("Player " +:+ pretty (idx + 1)%nat) (ps !! idx).

(** [onGuess(raw)].  The free variables [phase], [word], [guessed],
    [revealed], [mode], [score], [lives], [streak], [players] and
    [currentIdx] are read in [guessEnv]; updater functions read the pending
    state.  [rnd] is the draw used if the guess wins a solo round.  The
    call to [saveScore], which the source delays by 100 ms, is recorded at
    once with the arguments it captured. *)
Definition onGuess (rnd : nat) (raw : ascii) : Handler := fun a =>
  let e := guessEnv a in
  if bool_decide (phase e ≠ play) || bool_decide (word e = "") then a
  else
    let ch := Js.toLowerCase raw in
    if bool_decide (is_Some (guessed e !! ch)) then a (* already guessed *)
    else
      let matchIdx := matchIndices (word e) ch in
      if (0 <? length matchIdx)%nat then
        let newRev :=
          fold_left (fun acc i => Js.array_set i true acc) matchIdx
            (revealed e) in
        let allRevealed := Js.every newRev in
        (setRevealed (val newRev) >>>
         setGuessed (fun g => <[ch := correct]> g) >>>
         (* Solo scoring for correct letters *)
         when (bool_decide (mode e = solo))
           (setScore (fun s => s + 10 * Z.of_nat (length matchIdx))) >>>
         when allRevealed
           (if bool_decide (mode e = solo) then
              (* Win in solo: bonus for remaining lives *)
              let finalScore := score e + 20 * lives e in
              let isPerfect :=
                bool_decide (wrongGuesses (guessed e) = 0%nat) in
              setScore (val finalScore) >>>
              setResult (val (Some win)) >>>
              setStreak (fun t => t + 1) >>>
              (if isPerfect then
                 setPerfectStreak (fun p => p + 1) >>>
                 setScore (fun s => s + 100)
               else setPerfectStreak (val 0)) >>>
              setWordsCompleted (fun prev => prev + 1) >>>
              setPhase (val finished) >>>
              checkAchievements e
                {| won := true; perfect := isPerfect;
                   finalScore := finalScore + (if isPerfect then 100 else 0);
                   livesRemaining := lives e |} >>>
              setAvailablePowerUps (grantReward rnd) >>>
              emit (SaveScore (finalScore + (if isPerfect then 100 else 0))
                      (streak e + 1))
            else
              setWinner (val (Some (winnerName (players e) (currentIdx e)))) >>>
              setPhase (val finished))) a
      else
        (setGuessed (fun g => <[ch := wrong]> g) >>>
         (if bool_decide (mode e = solo) then
            let nextLives := lives e - 1 in
            setLives (val nextLives) >>>
            when (nextLives <=? 0)
              (setRevealed (val (Js.array_from (String.length (word e)) true)) >>>
               setResult (val (Some lose)) >>>
               setStreak (val 0) >>>
               setPerfectStreak (val 0) >>>
               setPhase (val finished) >>>
               checkAchievements e
                 {| won := false; perfect := false; finalScore := score e;
                    livesRemaining := nextLives |})
          else
            (* Advance to next player on wrong guess (multiplayer) *)
            setCurrentIdx (fun idx =>
              if bool_decide (length (players e) ≠ 0%nat)
              then ((idx + 1) mod length (players e))%nat else idx))) a.

(** ** Power-ups *)

(** [handlePowerUp(type)]. *)
Definition handlePowerUp (type : PowerUpKind) : Handler :=
  setPowerUp (val (Some type)) >>>
  setAvailablePowerUps (fun prev => filter (fun p => p ≠ type) prev).

(** The body of the power-up effect, run with the values [r] of the render
    that scheduled it.  The [doublePoints] branch returns from the effect
    before [setPowerUp(null)] is reached. *)
Definition powerUpEffect (r : Store) : Handler :=
  match powerUp r with
  | None => skip
  | Some p =>
      (* Track power-up usage *)
      setPowerUpsUsed (fun prev => prev + 1) >>>
      (if bool_decide (p = doublePoints) then
         setScoreMultiplier (val 2) >>>
         setDoublePointsUsed (fun prev => prev + 1) >>>
         setMultiplierTimer true
       else
         when (bool_decide (p = revealLetter))
           (setRevealLetterUsed (fun prev => prev + 1) >>>
            match Js.findIndex negb (revealed r) with
            | Some unrevealedIndex =>
                setRevealed (val (Js.array_set unrevealedIndex true (revealed r)))
            | None => skip
            end) >>>
         when (bool_decide (p = extraLife)) (setLives (fun lives => lives + 1)) >>>
         (* Reset the power-up after use *)
         setPowerUp (val None))
  end.

(** ** [startGame] *)

(** What the [fetch] of [startGame] came back with: a response with
    [res.ok] and its parsed fields ([None] for a field that is absent; an
    empty string is falsy as in the source), a response that is not ok, or
    an exception. *)
Inductive FetchResult : Type :=
  | FetchOk (dataWord dataMeaning : string) (dataDisplay : option string)
  | FetchNotOk
  | FetchThrew.

Definition lowerString (s : string) : string :=
  string_of_list_ascii (Js.toLowerCase <$> list_ascii_of_string s).

(** [startGame], from the moment its [fetch] settles; [m0] is the [mode]
    captured when the callback was created and [rnd] the draw of the
    starter.  The [setError(null)] that precedes the [await] is folded into
    the first update. *)
Definition startGame (m0 : Mode) (fr : FetchResult) (rnd : nat) : Handler :=
  let '(w, m, disp, err) :=
    match fr with
    | FetchOk dataWord dataMeaning dataDisplay =>
        if bool_decide (dataWord ≠ "") && bool_decide (dataMeaning ≠ "") then
          let w := lowerString dataWord in
          (w, dataMeaning, default w dataDisplay, None)
        else ("hello", "a greeting", "", None)
    | FetchNotOk => ("hello", "a greeting", "", None)
    | FetchThrew =>
        ("hello", "a greeting", "hello",
         Some "Could not reach backend, using a fallback word.")
    end in
  setError (val err) >>>
  setWord (val w) >>>
  setDisplayRaw (val disp) >>>
  setMeaning (val m) >>>
  setRevealed (val (Js.array_from (String.length w) false)) >>>
  setGuessed (val ∅) >>>
  (* Give the player ONE random power-up to start (solo mode only) *)
  (if bool_decide (m0 = solo) then
     setAvailablePowerUps (val (option_list (POOL !! (rnd mod length POOL)%nat)))
   else setAvailablePowerUps (val [])) >>>
  setCurrentIdx (val 0%nat) >>>
  setWinner (val None) >>>
  (* Solo specific resets (keep score/streak across words) *)
  setResult (val None) >>>
  setLives (val MAX_LIVES) >>>
  setPhase (val play).

(** ** Reset button *)

Definition resetClick : Handler :=
  (* Reset to setup *)
  setPhase (val setup) >>>
  setPlayers (val []) >>>
  setGuessed (val ∅) >>>
  setRevealed (val []) >>>
  setWinner (val None) >>>
  setResult (val None) >>>
  setWord (val "") >>>
  setMeaning (val "") >>>
  setDisplayRaw (val "") >>>
  setCurrentIdx (val 0%nat) >>>
  setLives (val MAX_LIVES) >>>
  setAvailablePowerUps (val []) >>>
  setScore (val 0) >>>
  setStreak (val 0).

(** ** Set-up form *)

(** [addPlayer], with [n] the trimmed [nameInput]. *)
Definition addPlayer (n : string) : Handler :=
  if bool_decide (n = "") then skip
  else setPlayers (fun prev => prev ++ [n]).

(** [removePlayer(idx)]. *)
Definition removePlayer (idx : nat) : Handler :=
  setPlayers (fun prev => Js.filter_index idx prev).

(** ** Rendering *)

(** Dependency list of [onGuess]:
    [[phase, word, guessed, revealed, players, currentIdx, mode, lives]]. *)
Definition deps_onGuess (s : Store) :=
  (phase s, word s, guessedId s, revealedId s, playersId s, currentIdx s,
   mode s, lives s).

(** Dependency list of the power-up effect: [[powerUp, revealed, lives]]. *)
Definition deps_effect (s : Store) := (powerUp s, revealedId s, lives s).

(** [useCallback]: a render keeps the previous [onGuess] unless one of its
    dependencies differs from the captured one. *)
Definition refreshCallbacks : Handler := fun a =>
  if bool_decide (deps_onGuess (guessEnv a) = deps_onGuess (store a)) then a
  else {| store := store a; guessEnv := store a;
          multiplierTimer := multiplierTimer a; toastTimers := toastTimers a;
          calls := calls a |}.

(** A render with state [store a] that follows a render with state [prev],
    and the renders its effect causes in turn.  When the effect's
    dependencies changed, the clean-up of the previous run clears the
    multiplier timeout and the effect runs again. *)
Fixpoint renderLoop (fuel : nat) (prev : Store) (a : App) : App :=
  let a1 := refreshCallbacks a in
  if bool_decide (deps_effect prev = deps_effect (store a1)) then a1
  else
    match fuel with
    | O => a1
    | S fuel' =>
        renderLoop fuel' (store a1)
          ((setMultiplierTimer false >>> powerUpEffect (store a1)) a1)
    end.

(** An event: the handler's batch of updates, then the renders.  Two effect
    runs are all that can happen (lemma [renderLoop_fuel]). *)
Definition commit (h : Handler) (a : App) : App :=
  renderLoop 2 (store a) (h a).

(** ** Events *)

Inductive Event : Type :=
  | StartGame (m0 : Mode) (fr : FetchResult) (rnd : nat)
      (* the fetch of [startGame] settles *)
  | Guess (raw : ascii) (rnd : nat)
      (* a letter button or a key: [onGuess(raw)] *)
  | PowerUpClick (type : PowerUpKind)
      (* a button of the power-up bar *)
  | ResetClick
  | SetModeClick (m : Mode)
  | AddPlayerClick (n : string)
  | RemovePlayerClick (idx : nat)
  | MultiplierTimeout
      (* the 30 s timeout of the power-up effect fires *)
  | ToastTimeout.
      (* a 4 s timeout of [checkAchievements] fires *)

#[global] Instance FetchResult_eq_dec : EqDecision FetchResult.
Proof. solve_decision. Defined.
#[global] Instance Event_eq_dec : EqDecision Event.
Proof. solve_decision. Defined.

(** The handler an event reaches.  A button acts only where the JSX renders
    it: the power-up bar shows one button per entry of [availablePowerUps]
    and only in solo play, Reset is shown outside set-up, the mode toggle
    and the player list only in set-up (the latter in multiplayer mode). *)
Definition handlerOf (ev : Event) (a : App) : Handler :=
  let s := store a in
  match ev with
  | StartGame m0 fr rnd => startGame m0 fr rnd
  | Guess raw rnd => onGuess rnd raw
  | PowerUpClick type =>
      when (bool_decide (phase s = play) && bool_decide (mode s ≠ multi)
            && bool_decide (type ∈ availablePowerUps s))
        (handlePowerUp type)
  | ResetClick => when (bool_decide (phase s ≠ setup)) resetClick
  | SetModeClick m => when (bool_decide (phase s = setup)) (setMode (val m))
  | AddPlayerClick n =>
      when (bool_decide (phase s = setup) && bool_decide (mode s = multi))
        (addPlayer n)
  | RemovePlayerClick idx =>
      when (bool_decide (phase s = setup) && bool_decide (mode s = multi)
            && bool_decide (idx < length (players s))%nat)
        (removePlayer idx)
  | MultiplierTimeout =>
      when (multiplierTimer a)
        (setMultiplierTimer false >>> setScoreMultiplier (val 1))
  | ToastTimeout =>
      match toastTimers a with
      | O => skip
      | S n => fun a' =>
          setShowAchievement (val None)
            {| store := store a'; guessEnv := guessEnv a';
               multiplierTimer := multiplierTimer a'; toastTimers := n;
               calls := calls a' |}
      end
  end.

Definition step (ev : Event) (a : App) : App := commit (handlerOf ev a) a.

(** The initial values of the hooks. *)
Definition initStore : Store :=
  {| mode := solo; players := []; playersId := 0; phase := setup;
     currentIdx := 0; word := ""; displayRaw := ""; meaning := "";
     revealed := []; revealedId := 0; guessed := ∅; guessedId := 0;
     winner := None; result := None; error := None; powerUp := None;
     lives := MAX_LIVES; score := 0; streak := 0; scoreMultiplier := 1;
     perfectStreak := 0; achievements := []; showAchievement := None;
     powerUpsUsed := 0; wordsCompleted := 0; doublePointsUsed := 0;
     revealLetterUsed := 0; availablePowerUps := [] |}.

Definition init : App :=
  {| store := initStore; guessEnv := initStore; multiplierTimer := false;
     toastTimers := 0; calls := [] |}.

(** The state after a sequence of events, first event first. *)
Definition run (evs : list Event) : App :=
  fold_left (fun a ev => step ev a) evs init.

(** * Vocabulary of the properties *)

(** No power-up is waiting to be consumed: [powerUp] is [null], or it is
    the [doublePoints] that its branch of the effect never clears. *)
Definition settled (s : Store) : Prop :=
  powerUp s = None \/ powerUp s = Some doublePoints.

(** The hooks that [onGuess] and the [checkAchievements] it captured read
    and that cannot change without one of the dependencies of [onGuess]
    changing. *)
Definition closureView (s : Store) :=
  (mode s, players s, playersId s, phase s, currentIdx s, word s,
   revealed s, revealedId s, guessed s, guessedId s, lives s, score s,
   streak s, perfectStreak s, achievements s, wordsCompleted s).

Record Inv (a : App) : Prop := mkInv {
  inv_view : closureView (guessEnv a) = closureView (store a);
  inv_length : length (revealed (store a)) = String.length (word (store a));
  inv_settled : settled (store a);
  inv_word : phase (store a) = play -> word (store a) ≠ "";
  inv_setup : phase (store a) = setup -> currentIdx (store a) = 0%nat;
  inv_idx : currentIdx (store a) = 0%nat
            \/ (currentIdx (store a) < length (players (store a)))%nat
}.

(** What a handler has to establish for [Inv] to hold after the renders
    that follow it, when it leaves no power-up to be consumed. *)
Record Preserves (a a' : App) : Prop := mkPreserves {
  pres_env : guessEnv a' = guessEnv a;
  pres_view : deps_onGuess (store a) = deps_onGuess (store a') ->
              closureView (store a) = closureView (store a');
  pres_length :
    length (revealed (store a')) = String.length (word (store a'));
  pres_settled : settled (store a');
  pres_word : phase (store a') = play -> word (store a') ≠ "";
  pres_setup : phase (store a') = setup -> currentIdx (store a') = 0%nat;
  pres_idx : currentIdx (store a') = 0%nat
             \/ (currentIdx (store a') < length (players (store a')))%nat
}.

(** The hooks that the power-up effect never writes. *)
Definition effectFree (s : Store) :=
  (mode s, players s, phase s, currentIdx s, word s, displayRaw s, meaning s,
   guessed s, winner s, result s, error s, score s, streak s,
   perfectStreak s, achievements s, showAchievement s, wordsCompleted s,
   availablePowerUps s).

(** The early returns of [onGuess]. *)
Definition ignored (raw : ascii) (e : Store) : bool :=
  bool_decide (phase e ≠ play) || bool_decide (word e = "")
  || bool_decide (is_Some (guessed e !! Js.toLowerCase raw)).

(** Events that neither start a round nor reset the session. *)
Definition withinRound (ev : Event) : bool :=
  match ev with
  | StartGame _ _ _ | ResetClick => false
  | _ => true
  end.

(** The round is solved: the phase is finished with a solo win or a
    multiplayer winner. *)
Definition solved (s : Store) : Prop :=
  phase s = finished
  /\ match mode s with
     | solo => result s = Some win
     | multi => is_Some (winner s)
     end.

(** A click on the Reveal Letter button. *)
Definition isRevealClick (ev : Event) : bool :=
  match ev with
  | PowerUpClick revealLetter => true
  | _ => false
  end.

(** What holds of phase, mode, outcome and [revealed] as long as no letter
    was revealed by a power-up. *)
Record RoundInv (s : Store) : Prop := mkRoundInv {
  rinv_setup : phase s = setup -> result s = None /\ winner s = None;
  rinv_play : phase s = play ->
              result s = None /\ winner s = None
              /\ Js.every (revealed s) = false;
  rinv_finished : phase s = finished ->
                  Js.every (revealed s) = true
                  /\ (mode s = solo /\ winner s = None
                      /\ (result s = Some win \/ result s = Some lose)
                      \/ mode s = multi /\ result s = None
                         /\ is_Some (winner s))
}.

Definition roundView (s : Store) :=
  (phase s, mode s, result s, winner s, revealed s).

(** ** Proof steps shared by the case analyses *)

Ltac view_eqs H := unfold closureView in H; simplify_eq.

Ltac handler_cases :=
  unfold when, andThen, skip, val;
  repeat (case_bool_decide || case_match).

(** Decide the tests between closed terms that [cbn] leaves alone. *)
Ltac closed_tests :=
  repeat match goal with
         | |- context [bool_decide (?x = ?y)] =>
             first [ rewrite (bool_decide_eq_true_2 (x = y)) by done
                   | rewrite (bool_decide_eq_false_2 (x = y)) by done ]
         end.

Ltac closed_tests_in H :=
  repeat match type of H with
         | context [bool_decide (?x = ?y)] =>
             first [ rewrite (bool_decide_eq_true_2 (x = y)) in H by done
                   | rewrite (bool_decide_eq_false_2 (x = y)) in H by done ]
         end.

Ltac deps_differ :=
  unfold deps_onGuess; cbn; intros; simplify_eq; lia.

(** Closed statements about a concrete run are settled by evaluation. *)
Ltac evaluate :=
  repeat match goal with |- _ /\ _ => split end; vm_compute; reflexivity.


(** * Properties *)

#[local] Arguments newAchievements : simpl never.
#[local] Arguments grantReward : simpl never.
#[local] Arguments matchIndices : simpl never.
#[local] Arguments wrongGuesses : simpl never.
#[local] Arguments winnerName : simpl never.
#[local] Arguments Js.array_set : simpl never.
#[local] Arguments Js.array_from : simpl never.
#[local] Arguments Js.every : simpl never.
#[local] Arguments Js.toLowerCase : simpl never.
#[local] Arguments String.length : simpl never.
#[local] Arguments lowerString : simpl never.

(** ** Arrays and words *)

Lemma matchIndices_lt w ch i :
  i ∈ matchIndices w ch -> (i < String.length w)%nat.
Proof.
  unfold matchIndices. rewrite list_elem_of_filter. intros [_ Hi].
  apply elem_of_seq in Hi. lia.
Qed.

Lemma string_get_lt w : forall i c,
  String.get i w = Some c -> (i < String.length w)%nat.
Proof.
  induction w as [|c' w IH]; intros [|i] c Hg; cbn in Hg; try discriminate;
    unfold String.length; fold String.length; [lia|].
  specialize (IH i c Hg). lia.
Qed.

Lemma matchIndices_get w ch i :
  i ∈ matchIndices w ch <-> String.get i w = Some ch.
Proof.
  unfold matchIndices. rewrite list_elem_of_filter, elem_of_seq.
  split; [by intros [? _]|]. intros Hg. split; [done|].
  apply string_get_lt in Hg. lia.
Qed.

Lemma array_set_in_range i v arr :
  (i < length arr)%nat -> Js.array_set i v arr = <[i := v]> arr.
Proof.
  intros Hi. unfold Js.array_set.
  destruct (Nat.ltb_spec i (length arr)); [done|lia].
Qed.

Lemma array_set_length i v arr :
  (i < length arr)%nat -> length (Js.array_set i v arr) = length arr.
Proof. intros Hi. rewrite array_set_in_range by done. apply length_insert. Qed.

Lemma reveal_length idxs arr :
  (forall i, i ∈ idxs -> (i < length arr)%nat) ->
  length (fold_left (fun acc i => Js.array_set i true acc) idxs arr)
  = length arr.
Proof.
  revert arr. induction idxs as [|i idxs IH]; intros arr Hlt; cbn; [done|].
  assert (Hi : (i < length arr)%nat) by (apply Hlt; left).
  rewrite IH; [by apply array_set_length|].
  intros j Hj. rewrite array_set_length by done. apply Hlt. by right.
Qed.

Lemma array_from_length n v : length (Js.array_from n v) = n.
Proof. apply length_replicate. Qed.

Lemma findIndex_Some {A} (p : A -> bool) arr i :
  Js.findIndex p arr = Some i ->
  (i < length arr)%nat
  /\ (exists x, arr !! i = Some x /\ p x = true)
  /\ (forall j x, (j < i)%nat -> arr !! j = Some x -> p x = false).
Proof.
  revert i. induction arr as [|y arr IH]; intros i; cbn; [done|].
  destruct (p y) eqn:Hy.
  - intros [= <-]. split; [lia|]. split; [by exists y|]. intros; lia.
  - destruct (Js.findIndex p arr) as [k|]; [|done]. cbn. intros [= <-].
    destruct (IH k eq_refl) as (Hk & Hx & Hlow).
    split; [lia|]. split; [done|].
    intros [|j] x Hj; cbn; [by intros [= <-]|]. apply Hlow. lia.
Qed.

Lemma findIndex_None {A} (p : A -> bool) arr :
  Js.findIndex p arr = None -> forall x, x ∈ arr -> p x = false.
Proof.
  induction arr as [|y arr IH]; cbn; [by intros _ x ?%elem_of_nil|].
  destruct (p y) eqn:Hy; [done|].
  destruct (Js.findIndex p arr); [done|]. intros _ x [->|Hx]%elem_of_cons;
    [done|by apply IH].
Qed.

Lemma every_true arr : Js.every arr = true <-> forall b, b ∈ arr -> b = true.
Proof.
  unfold Js.every. rewrite forallb_forall.
  split; intros H b Hb; apply H; by apply list_elem_of_In.
Qed.

Lemma lowerString_nonempty s : s ≠ "" -> lowerString s ≠ "".
Proof. destruct s; [done|]. intros _. unfold lowerString. by cbn. Qed.

(** ** Outgoing calls leave the state alone *)

Lemma emitAll_store cs a : store (emitAll cs a) = store a.
Proof.
  unfold emitAll. revert a.
  induction cs as [|c cs IH]; intros a; cbn; [done|]. by rewrite IH.
Qed.

Lemma emitAll_env cs a : guessEnv (emitAll cs a) = guessEnv a.
Proof.
  unfold emitAll. revert a.
  induction cs as [|c cs IH]; intros a; cbn; [done|]. by rewrite IH.
Qed.

Lemma emitAll_timer cs a : multiplierTimer (emitAll cs a) = multiplierTimer a.
Proof.
  unfold emitAll. revert a.
  induction cs as [|c cs IH]; intros a; cbn; [done|]. by rewrite IH.
Qed.

Lemma emitAll_toast cs a : toastTimers (emitAll cs a) = toastTimers a.
Proof.
  unfold emitAll. revert a.
  induction cs as [|c cs IH]; intros a; cbn; [done|]. by rewrite IH.
Qed.

Lemma emitAll_calls cs a : calls (emitAll cs a) = calls a ++ cs.
Proof.
  unfold emitAll. revert a.
  induction cs as [|c cs IH]; intros a; cbn; [by rewrite app_nil_r|].
  rewrite IH. cbn. by rewrite <- app_assoc.
Qed.

#[local] Arguments emitAll : simpl never.

(** ** The render loop *)

Lemma refreshCallbacks_store a : store (refreshCallbacks a) = store a.
Proof. unfold refreshCallbacks. case_bool_decide; reflexivity. Qed.

Lemma refreshCallbacks_deps a :
  deps_onGuess (guessEnv (refreshCallbacks a))
  = deps_onGuess (store (refreshCallbacks a)).
Proof.
  unfold refreshCallbacks. case_bool_decide; [assumption|reflexivity].
Qed.

Lemma refreshCallbacks_id a :
  deps_onGuess (guessEnv a) = deps_onGuess (store a) ->
  refreshCallbacks a = a.
Proof.
  intros H. unfold refreshCallbacks. rewrite bool_decide_eq_true_2; done.
Qed.

Lemma renderLoop_unfold fuel prev a :
  renderLoop fuel prev a =
    let a1 := refreshCallbacks a in
    if bool_decide (deps_effect prev = deps_effect (store a)) then a1
    else match fuel with
         | O => a1
         | S fuel' =>
             renderLoop fuel' (store a)
               (powerUpEffect (store a) (setMultiplierTimer false a1))
         end.
Proof.
  destruct fuel; cbn [renderLoop]; rewrite !refreshCallbacks_store;
    reflexivity.
Qed.

(** A render whose dependencies are those of the previous one changes
    nothing. *)
Lemma renderLoop_stable fuel prev a :
  deps_onGuess (guessEnv a) = deps_onGuess (store a) ->
  deps_effect prev = deps_effect (store a) ->
  renderLoop fuel prev a = a.
Proof.
  intros H1 H2. rewrite renderLoop_unfold. cbn zeta.
  rewrite bool_decide_eq_true_2 by done. by apply refreshCallbacks_id.
Qed.

Lemma powerUpEffect_env r a : guessEnv (powerUpEffect r a) = guessEnv a.
Proof.
  unfold powerUpEffect. destruct (powerUp r) as [p|]; [|reflexivity].
  destruct p; cbn; try reflexivity.
  destruct (Js.findIndex negb (revealed r)); reflexivity.
Qed.

(** With a settled state the effect runs at most once. *)
Lemma renderLoop_settled fuel prev a :
  settled (store a) ->
  renderLoop (S fuel) prev a =
    let a1 := refreshCallbacks a in
    if bool_decide (deps_effect prev = deps_effect (store a)) then a1
    else powerUpEffect (store a) (setMultiplierTimer false a1).
Proof.
  intros Hs. rewrite renderLoop_unfold. cbn zeta.
  case_bool_decide as Hd; [reflexivity|].
  pose proof (refreshCallbacks_deps a) as Hr.
  pose proof (refreshCallbacks_store a) as Hst.
  set (a1 := refreshCallbacks a) in *. clearbody a1.
  rewrite Hst in Hr.
  apply renderLoop_stable; rewrite ?powerUpEffect_env; unfold powerUpEffect;
    destruct Hs as [Hs | Hs]; rewrite Hs; cbn;
    repeat (case_bool_decide; try done); cbn; rewrite ?Hst, ?Hs; done.
Qed.

(** With [revealLetter] or [extraLife] pending the effect consumes it and
    the render that follows finds nothing left to do. *)
Lemma renderLoop_consume fuel prev a p :
  powerUp (store a) = Some p -> p ≠ doublePoints ->
  deps_effect prev ≠ deps_effect (store a) ->
  renderLoop (S (S fuel)) prev a =
    setMultiplierTimer false
      (refreshCallbacks
         (powerUpEffect (store a)
            (setMultiplierTimer false (refreshCallbacks a)))).
Proof.
  intros Hp Hne Hd. rewrite renderLoop_unfold. cbn zeta.
  rewrite bool_decide_eq_false_2 by done.
  pose proof (refreshCallbacks_store a) as Hst.
  set (a1 := refreshCallbacks a) in *. clearbody a1.
  set (a2 := powerUpEffect (store a) (setMultiplierTimer false a1)).
  assert (Hp2 : powerUp (store a2) = None).
  { subst a2. unfold powerUpEffect. rewrite Hp.
    unfold andThen, when, skip.
    repeat (case_bool_decide || case_match); done. }
  rewrite renderLoop_unfold. cbn zeta.
  rewrite bool_decide_eq_false_2.
  2:{ unfold deps_effect. rewrite Hp, Hp2. intros ?; simplify_eq. }
  pose proof (refreshCallbacks_deps a2) as Hr.
  pose proof (refreshCallbacks_store a2) as Hst2.
  set (a3 := refreshCallbacks a2) in *. clearbody a3.
  unfold powerUpEffect at 1. rewrite Hp2. unfold skip.
  apply renderLoop_stable; cbn; [done|by rewrite Hst2].
Qed.

(** The fuel of [commit] is never used up. *)
Lemma renderLoop_fuel fuel prev a :
  renderLoop (S (S fuel)) prev a = renderLoop 2 prev a.
Proof.
  destruct (decide (deps_effect prev = deps_effect (store a))) as [Hd|Hd].
  { rewrite !renderLoop_unfold. cbn zeta.
    by rewrite !bool_decide_eq_true_2 by done. }
  destruct (powerUp (store a)) as [p|] eqn:Hp.
  - destruct (decide (p = doublePoints)) as [->|Hne].
    + rewrite !renderLoop_settled by (by right). done.
    + by rewrite !(renderLoop_consume _ _ _ p).
  - rewrite !renderLoop_settled by (by left). done.
Qed.

(** ** Invariant of the reachable states *)

Lemma view_deps s s' :
  closureView s = closureView s' -> deps_onGuess s = deps_onGuess s'.
Proof.
  unfold closureView, deps_onGuess. intros H. simplify_eq. congruence.
Qed.

Lemma refresh_view a a' :
  closureView (guessEnv a) = closureView (store a) ->
  guessEnv a' = guessEnv a ->
  (deps_onGuess (store a) = deps_onGuess (store a') ->
   closureView (store a) = closureView (store a')) ->
  closureView (guessEnv (refreshCallbacks a')) = closureView (store a').
Proof.
  intros Hv He Hp. unfold refreshCallbacks. rewrite He.
  case_bool_decide as Hd; cbn; [|reflexivity].
  rewrite He, Hv. apply Hp. rewrite <- Hd. symmetry. by apply view_deps.
Qed.

Lemma commit_Inv h a : Inv a -> Preserves a (h a) -> Inv (commit h a).
Proof.
  intros [Hv Hl Hs Hw Hu Hi] [He Hp Hl' Hs' Hw' Hu' Hi']. unfold commit.
  rewrite renderLoop_settled by assumption. cbn zeta.
  pose proof (refresh_view a (h a) Hv He Hp) as Hr.
  pose proof (refreshCallbacks_store (h a)) as Hst.
  set (a1 := refreshCallbacks (h a)) in *. clearbody a1.
  case_bool_decide as Hd.
  - split; rewrite ?Hst; assumption.
  - unfold powerUpEffect. destruct Hs' as [Hs' | Hs']; rewrite Hs'.
    + split; cbn; rewrite ?Hst; try assumption. by left.
    + cbn. repeat (case_bool_decide; try done).
      split; cbn; rewrite ?Hst; try assumption. by right.
Qed.

Lemma skip_Preserves a : Inv a -> Preserves a a.
Proof. intros [Hv Hl Hs Hw Hu Hi]. split; done. Qed.

Lemma onGuess_Preserves rnd raw a : Inv a -> Preserves a (onGuess rnd raw a).
Proof.
  intros [Hv Hl Hs Hw Hu Hi]. view_eqs Hv.
  assert (Hrl : forall ch,
    length (fold_left (fun acc i => Js.array_set i true acc)
              (matchIndices (word (guessEnv a)) ch) (revealed (guessEnv a)))
    = String.length (word (store a))).
  { intros ch. rewrite reveal_length; [congruence|].
    intros i Hi'%matchIndices_lt. congruence. }
  unfold onGuess, checkAchievements. handler_cases.
  all: split; cbn; rewrite ?emitAll_store, ?emitAll_env; cbn.
  all: try done.
  all: try deps_differ.
  all: rewrite ?array_from_length; try congruence.
  right. replace (players (store a)) with (players (guessEnv a)).
  apply Nat.mod_upper_bound. done.
Qed.

Lemma startGame_Preserves m0 fr rnd a :
  Inv a -> Preserves a (startGame m0 fr rnd a).
Proof.
  intros [Hv Hl Hs Hw Hu Hi].
  unfold startGame. destruct fr as [dw dm dd| |]; handler_cases.
  all: simplify_eq.
  all: split; cbn; rewrite ?array_from_length; try done; try deps_differ.
  all: try (by left).
  all: intros _; by apply lowerString_nonempty.
Qed.

Lemma resetClick_Preserves a : Inv a -> Preserves a (resetClick a).
Proof.
  intros [Hv Hl Hs Hw Hu Hi]. unfold resetClick. handler_cases.
  split; cbn; try done; try deps_differ.
Qed.

Lemma handlerOf_Preserves ev a :
  Inv a ->
  (forall type, ev = PowerUpClick type -> type = doublePoints) ->
  Preserves a (handlerOf ev a a).
Proof.
  intros HI Hev. pose proof HI as [Hv Hl Hs Hw Hu Hi].
  destruct ev as [m0 fr rnd|raw rnd|type| |m|n|idx| |]; cbn [handlerOf].
  - by apply startGame_Preserves.
  - by apply onGuess_Preserves.
  - rewrite (Hev type eq_refl). unfold handlePowerUp. handler_cases.
    all: try (by apply skip_Preserves).
    all: split; cbn; try done; by right.
  - unfold when. case_bool_decide; [by apply resetClick_Preserves|].
    by apply skip_Preserves.
  - handler_cases; [|by apply skip_Preserves].
    split; cbn; try done.
    unfold deps_onGuess, closureView; cbn; intros; simplify_eq; congruence.
  - unfold addPlayer. handler_cases.
    all: try (by apply skip_Preserves).
    all: split; cbn; try done; try deps_differ.
    all: left; by apply Hu.
  - unfold removePlayer. handler_cases.
    all: try (by apply skip_Preserves).
    all: split; cbn; try done; try deps_differ.
    all: left; by apply Hu.
  - handler_cases; [|by apply skip_Preserves]. split; cbn; done.
  - destruct (toastTimers a); [by apply skip_Preserves|]. split; cbn; done.
Qed.

(** A click on [revealLetter] or [extraLife]: the handler, the effect that
    consumes the power-up, and the render after it. *)
Lemma consume_eq type a :
  Inv a -> type ≠ doublePoints ->
  commit (handlePowerUp type) a =
    setMultiplierTimer false
      (refreshCallbacks
         (powerUpEffect (store (handlePowerUp type a))
            (setMultiplierTimer false
               (refreshCallbacks (handlePowerUp type a))))).
Proof.
  intros [Hv Hl Hs Hw Hu Hi] Hne. unfold commit.
  apply (renderLoop_consume 0 _ _ type); [done|done|].
  unfold deps_effect. cbn. unfold val. intros Heq.
  destruct Hs as [Hs|Hs]; rewrite Hs in Heq; simplify_eq.
Qed.

Lemma consume_Inv type a :
  Inv a -> type ≠ doublePoints -> Inv (commit (handlePowerUp type) a).
Proof.
  intros HI Hne. rewrite consume_eq by done.
  destruct HI as [Hv Hl Hs Hw Hu Hi].
  set (a0 := handlePowerUp type a).
  assert (Hv1 : closureView (guessEnv (refreshCallbacks a0))
                = closureView (store a0)).
  { apply (refresh_view a); [done|done|]. intros _. done. }
  assert (Hp0 : powerUp (store a0) = Some type) by done.
  assert (Hst0 : phase (store a0) = phase (store a)
                 /\ word (store a0) = word (store a)
                 /\ currentIdx (store a0) = currentIdx (store a)
                 /\ players (store a0) = players (store a)
                 /\ revealed (store a0) = revealed (store a)) by done.
  destruct Hst0 as (Hph0 & Hwd0 & Hci0 & Hpl0 & Hrv0).
  clearbody a0.
  pose proof (refreshCallbacks_store a0) as Hst.
  set (a1 := refreshCallbacks a0) in *. clearbody a1.
  set (a2 := powerUpEffect (store a0) (setMultiplierTimer false a1)).
  assert (He2 : guessEnv a2 = guessEnv a1)
    by (subst a2; by rewrite powerUpEffect_env).
  pose proof (view_deps _ _ Hv1) as Hd1.
  assert (Hfin : forall s2,
    store a2 = s2 ->
    (deps_onGuess (store a0) = deps_onGuess s2 ->
     closureView (store a0) = closureView s2) ->
    length (revealed s2) = length (revealed (store a0)) ->
    powerUp s2 = None ->
    (phase s2, word s2, currentIdx s2, players s2)
    = (phase (store a0), word (store a0), currentIdx (store a0),
       players (store a0)) ->
    Inv (setMultiplierTimer false (refreshCallbacks a2))).
  { intros s2 Hs2 Hview Hlen Hp2 Hsame.
    assert (Hv2 : closureView (guessEnv (refreshCallbacks a2))
                  = closureView (store a2)).
    { unfold refreshCallbacks. rewrite He2, Hs2.
      case_bool_decide as Hd; cbn; rewrite ?Hs2; [|done].
      rewrite He2, Hv1. apply Hview. by rewrite <- Hd1. }
    pose proof (refreshCallbacks_store a2) as Hst2.
    set (a3 := refreshCallbacks a2) in *. clearbody a3.
    injection Hsame as Hph2 Hwd2 Hci2 Hpl2.
    split; cbn; rewrite ?Hst2, ?Hs2; [by rewrite <- Hs2|congruence|by left|..];
      rewrite ?Hph2, ?Hwd2, ?Hci2, ?Hpl2, ?Hph0, ?Hwd0, ?Hci0, ?Hpl0; done. }
  assert (Ha2 : a2 = powerUpEffect (store a0) (setMultiplierTimer false a1))
    by done.
  clearbody a2. unfold powerUpEffect in Ha2. rewrite Hp0 in Ha2.
  destruct type; [done| |]; closed_tests_in Ha2; cbn in Ha2.
  - (* revealLetter *)
    destruct (Js.findIndex negb (revealed (store a0))) as [i|] eqn:Hfi.
    + apply findIndex_Some in Hfi as (Hlt & _).
      eapply Hfin; [by rewrite Ha2|cbn; rewrite Hst..].
      * deps_differ.
      * unfold val. by rewrite array_set_length.
      * done.
      * done.
    + eapply Hfin; [by rewrite Ha2|cbn; rewrite Hst..]; done.
  - (* extraLife *)
    eapply Hfin; [by rewrite Ha2|cbn; rewrite Hst..]; try done. deps_differ.
Qed.

Lemma step_Inv ev a : Inv a -> Inv (step ev a).
Proof.
  intros HI. unfold step.
  destruct (decide (ev = PowerUpClick revealLetter \/ ev = PowerUpClick extraLife))
    as [Hev|Hno].
  - assert (exists type, ev = PowerUpClick type /\ type ≠ doublePoints)
      as (type & -> & Hne) by (destruct Hev as [->| ->]; eauto).
    cbn [handlerOf]. unfold when.
    destruct (_ && _); [by apply consume_Inv|].
    apply commit_Inv; [done|by apply skip_Preserves].
  - apply commit_Inv; [done|]. apply handlerOf_Preserves; [done|].
    intros [] ->; [done|destruct Hno; auto..].
Qed.

Lemma init_Inv : Inv init.
Proof. split; cbn; try done. - by left. - by left. Qed.

Lemma run_app evs ev : run (evs ++ [ev]) = step ev (run evs).
Proof. unfold run. by rewrite fold_left_app. Qed.

(** Every reachable state satisfies the invariant. *)
Lemma run_Inv evs : Inv (run evs).
Proof.
  induction evs as [|ev evs IH] using rev_ind; [apply init_Inv|].
  rewrite run_app. by apply step_Inv.
Qed.

(** ** The state after an event *)

Lemma powerUpEffect_store r a b :
  store a = store b ->
  store (powerUpEffect r a) = store (powerUpEffect r b).
Proof.
  intros Hab. unfold powerUpEffect. destruct (powerUp r) as [p|]; [|done].
  destruct p; closed_tests; cbn; rewrite ?Hab; try done.
  destruct (Js.findIndex negb (revealed r)); cbn; by rewrite Hab.
Qed.

(** The hooks after the renders: the handler's batch and, when a
    dependency of the power-up effect changed, one run of the effect. *)
Lemma renderLoop_store prev a :
  store (renderLoop 2 prev a) =
    if bool_decide (deps_effect prev = deps_effect (store a)) then store a
    else store (powerUpEffect (store a) a).
Proof.
  case_bool_decide as Hd.
  { rewrite renderLoop_unfold. cbn zeta. rewrite bool_decide_eq_true_2 by done.
    apply refreshCallbacks_store. }
  assert (Hgoal : store (powerUpEffect (store a)
                    (setMultiplierTimer false (refreshCallbacks a)))
                  = store (powerUpEffect (store a) a)).
  { apply powerUpEffect_store. cbn. apply refreshCallbacks_store. }
  destruct (powerUp (store a)) as [p|] eqn:Hp.
  - destruct (decide (p = doublePoints)) as [->|Hne].
    + rewrite renderLoop_settled by (by right). cbn zeta.
      by rewrite bool_decide_eq_false_2 by done.
    + rewrite (renderLoop_consume 0 _ _ p) by done. cbn.
      by rewrite refreshCallbacks_store.
  - rewrite renderLoop_settled by (by left). cbn zeta.
    by rewrite bool_decide_eq_false_2 by done.
Qed.

Lemma step_store ev a :
  store (step ev a) =
    let a1 := handlerOf ev a a in
    if bool_decide (deps_effect (store a) = deps_effect (store a1))
    then store a1 else store (powerUpEffect (store a1) a1).
Proof. unfold step, commit. apply renderLoop_store. Qed.

Lemma powerUpEffect_effectFree r a :
  effectFree (store (powerUpEffect r a)) = effectFree (store a).
Proof.
  unfold powerUpEffect. destruct (powerUp r) as [p|]; [|done].
  destruct p; closed_tests; cbn; try done.
  destruct (Js.findIndex negb (revealed r)); done.
Qed.

Lemma step_effectFree ev a :
  effectFree (store (step ev a)) = effectFree (store (handlerOf ev a a)).
Proof.
  rewrite step_store. cbn zeta. case_bool_decide; [done|].
  apply powerUpEffect_effectFree.
Qed.

(** An event whose handler does nothing changes nothing. *)
Lemma commit_skip h a : Inv a -> h a = a -> commit h a = a.
Proof.
  intros [Hv _ _ _ _ _] Hh. unfold commit. rewrite Hh.
  apply renderLoop_stable; [by apply view_deps|done].
Qed.

(** ** Repeated guesses *)

Lemma onGuess_repeated rnd raw a st :
  guessed (guessEnv a) !! Js.toLowerCase raw = Some st ->
  onGuess rnd raw a = a.
Proof.
  intros Hg. unfold onGuess. destruct (_ || _); [done|].
  rewrite bool_decide_eq_true_2; [done|]. rewrite Hg. by eexists.
Qed.

Lemma repeated_guess evs raw rnd st :
  guessed (store (run evs)) !! Js.toLowerCase raw = Some st ->
  step (Guess raw rnd) (run evs) = run evs.
Proof.
  intros Hg. pose proof (run_Inv evs) as HI.
  unfold step. apply commit_skip; [done|]. cbn [handlerOf].
  apply (onGuess_repeated _ _ _ st).
  destruct HI as [Hv _ _ _ _ _]. view_eqs Hv. congruence.
Qed.

(** C9.  In every reachable state, guessing a letter that is already a key
    of [guessed] leaves the whole component as it was: hooks (revealed,
    guessed, score, lives, streaks, turn index, phase, error message),
    captured values, timers and outgoing calls. *)
Theorem C9_repeated_guess_is_noop evs raw rnd st :
  guessed (store (run evs)) !! Js.toLowerCase raw = Some st ->
  step (Guess raw rnd) (run evs) = run evs.
Proof.
  intros Hg. pose proof (run_Inv evs) as [Hv _ _ _ _ _].
  assert (Hsame : onGuess rnd raw (run evs) = run evs).
  { apply (onGuess_repeated _ _ _ st). view_eqs Hv. congruence. }
  unfold step, commit. cbn [handlerOf]. rewrite Hsame.
  apply renderLoop_stable; [by apply view_deps|done].
Qed.

Lemma C9_repeated_guess_is_noop_witness :
  let evs := [StartGame solo (FetchOk "cat" "a small pet" None) 0;
              Guess "c" 0] in
  guessed (store (run evs)) !! Js.toLowerCase "C" = Some correct
  /\ step (Guess "C" 7) (run evs) = run evs.
Proof.
  cbv zeta. split; [vm_compute; reflexivity|].
  apply (C9_repeated_guess_is_noop _ "C"%char 7%nat correct).
  vm_compute. reflexivity.
Defined.

Lemma onGuess_ignored rnd raw a :
  ignored raw (guessEnv a) = true -> onGuess rnd raw a = a.
Proof.
  unfold ignored, onGuess.
  destruct (bool_decide (phase (guessEnv a) ≠ play)
            || bool_decide (word (guessEnv a) = "")); [done|].
  cbn. by intros ->.
Qed.

Lemma onGuess_marks rnd raw a :
  ignored raw (guessEnv a) = false ->
  is_Some (guessed (store (onGuess rnd raw a)) !! Js.toLowerCase raw).
Proof.
  unfold ignored, onGuess.
  destruct (bool_decide (phase (guessEnv a) ≠ play)
            || bool_decide (word (guessEnv a) = "")); [done|].
  cbn. intros ->. unfold checkAchievements. handler_cases; cbn; rewrite ?emitAll_store; cbn;
    by rewrite lookup_insert_eq.
Qed.

(** Guessing the same letter twice in a row: the second guess is a no-op
    whatever the first one did. *)
Lemma guess_twice evs raw rnd rnd' :
  step (Guess raw rnd') (step (Guess raw rnd) (run evs))
  = step (Guess raw rnd) (run evs).
Proof.
  pose proof (run_Inv evs) as HI.
  destruct (ignored raw (guessEnv (run evs))) eqn:Hig.
  - unfold step. cbn [handlerOf].
    by rewrite !(commit_skip _ _ HI) by (by apply onGuess_ignored).
  - rewrite <- run_app.
    apply (onGuess_marks rnd) in Hig as [st Hst].
    apply (repeated_guess _ _ _ st).
    rewrite run_app.
    pose proof (step_effectFree (Guess raw rnd) (run evs)) as Hfree.
    cbn [handlerOf] in Hfree. unfold effectFree in Hfree.
    assert (guessed (store (step (Guess raw rnd) (run evs)))
            = guessed (store (onGuess rnd raw (run evs)))) as ->
      by (simplify_eq; congruence).
    done.
Qed.

(** ** The [revealed] array *)

Lemma array_set_keeps j arr i :
  arr !! i = Some true -> Js.array_set j true arr !! i = Some true.
Proof.
  intros Hi. unfold Js.array_set.
  destruct (Nat.ltb_spec j (length arr)) as [Hj|Hj].
  - destruct (decide (j = i)) as [->|Hne].
    + by rewrite list_lookup_insert_eq.
    + by rewrite list_lookup_insert_ne.
  - by rewrite lookup_app_l by (by eapply lookup_lt_Some).
Qed.

Lemma reveal_keeps idxs arr i :
  arr !! i = Some true ->
  fold_left (fun acc j => Js.array_set j true acc) idxs arr !! i = Some true.
Proof.
  revert arr. induction idxs as [|j idxs IH]; intros arr Hi; cbn; [done|].
  apply IH. by apply array_set_keeps.
Qed.

Lemma array_from_lookup n v i :
  (i < n)%nat -> Js.array_from n v !! i = Some v.
Proof. intros Hi. unfold Js.array_from. by apply lookup_replicate_2. Qed.

(** [findIndex(r => !r)] is the lowest unrevealed position. *)
Lemma findIndex_lowest arr i :
  arr !! i = Some false ->
  (forall j, (j < i)%nat -> arr !! j = Some true) ->
  Js.findIndex negb arr = Some i.
Proof.
  revert i. induction arr as [|b arr IH]; intros i Hi Hlow; [done|].
  destruct i as [|i].
  - cbn in Hi. injection Hi as ->. done.
  - cbn. pose proof (Hlow 0%nat ltac:(lia)) as H0. cbn in H0.
    injection H0 as ->. cbn. rewrite (IH i); [done|done|].
    intros j Hj. apply (Hlow (S j)). lia.
Qed.

Lemma findIndex_all_revealed arr :
  (forall i, arr !! i ≠ Some false) -> Js.findIndex negb arr = None.
Proof.
  induction arr as [|b arr IH]; intros Hall; [done|].
  cbn. destruct b; cbn.
  - rewrite IH; [done|]. intros i. apply (Hall (S i)).
  - by destruct (Hall 0%nat).
Qed.

Lemma powerUpEffect_revealed_settled r a :
  settled r -> revealed (store (powerUpEffect r a)) = revealed (store a).
Proof.
  intros Hs. unfold powerUpEffect.
  destruct Hs as [-> | ->]; closed_tests; done.
Qed.

Lemma step_revealed_settled ev a :
  settled (store (handlerOf ev a a)) ->
  revealed (store (step ev a)) = revealed (store (handlerOf ev a a)).
Proof.
  intros Hs. rewrite step_store. cbn zeta. case_bool_decide; [done|].
  by apply powerUpEffect_revealed_settled.
Qed.

(** The state after a click on the [revealLetter] button. *)
Lemma revealLetter_click a :
  Inv a ->
  phase (store a) = play -> mode (store a) ≠ multi ->
  revealLetter ∈ availablePowerUps (store a) ->
  revealed (store (step (PowerUpClick revealLetter) a)) =
    match Js.findIndex negb (revealed (store a)) with
    | Some i => <[i := true]> (revealed (store a))
    | None => revealed (store a)
    end.
Proof.
  intros [_ _ Hs _ _ _] Hph Hmode Hin. rewrite step_store. cbn zeta.
  assert (handlerOf (PowerUpClick revealLetter) a = handlePowerUp revealLetter)
    as ->.
  { cbn [handlerOf].
    by rewrite (bool_decide_eq_true_2 (phase _ = play)),
      (bool_decide_eq_true_2 (mode _ ≠ multi)),
      (bool_decide_eq_true_2 (_ ∈ _)) by done. }
  unfold handlePowerUp, andThen, val. cbn.
  rewrite bool_decide_eq_false_2.
  2:{ unfold deps_effect. cbn. intros Heq.
      destruct Hs as [Hs|Hs]; rewrite Hs in Heq; simplify_eq. }
  unfold powerUpEffect. cbn. closed_tests. cbn.
  destruct (Js.findIndex negb (revealed (store a))) as [i|] eqn:Hfi; cbn;
    [|done].
  apply findIndex_Some in Hfi as (Hlt & _).
  by apply array_set_in_range.
Qed.

(** C8.  In a reachable state where the Reveal Letter button is shown
    (solo play, [revealLetter] available), a click reveals exactly the
    unrevealed position of lowest index and nothing else; when every
    position is revealed already, [revealed] stays as it is. *)
Theorem C8_revealLetter_lowest_index evs :
  let s := store (run evs) in
  let s' := store (step (PowerUpClick revealLetter) (run evs)) in
  phase s = play -> mode s = solo -> revealLetter ∈ availablePowerUps s ->
  (forall i, revealed s !! i = Some false ->
             (forall j, (j < i)%nat -> revealed s !! j = Some true) ->
             revealed s' = <[i := true]> (revealed s))
  /\ ((forall i, revealed s !! i ≠ Some false) -> revealed s' = revealed s).
Proof.
  intros s s' Hph Hmode Hin. pose proof (run_Inv evs) as HI.
  assert (Hm : mode (store (run evs)) ≠ multi) by (fold s; by rewrite Hmode).
  subst s'. rewrite (revealLetter_click _ HI Hph Hm Hin). fold s. split.
  - intros i Hi Hlow. by rewrite (findIndex_lowest _ i).
  - intros Hall. by rewrite findIndex_all_revealed.
Qed.

Lemma C8_revealLetter_lowest_index_witness :
  let evs := [StartGame solo (FetchOk "cat" "a small pet" None) 1;
              Guess "c" 0] in
  revealed (store (run evs)) = [true; false; false]
  /\ revealed (store (step (PowerUpClick revealLetter) (run evs)))
     = [true; true; false].
Proof.
  cbv zeta. split; [vm_compute; reflexivity|].
  refine (proj1 (C8_revealLetter_lowest_index
            [StartGame solo (FetchOk "cat" "a small pet" None) 1;
             Guess "c"%char 0%nat] _ _ _) 1%nat _ _).
  - vm_compute. reflexivity.
  - vm_compute. reflexivity.
  - vm_compute. apply list_elem_of_here.
  - vm_compute. reflexivity.
  - intros [|j] Hj; [vm_compute; reflexivity|lia].
Defined.

Lemma handler_keeps_revealed ev a i :
  Inv a -> withinRound ev = true ->
  revealed (store a) !! i = Some true ->
  revealed (store (handlerOf ev a a)) !! i = Some true.
Proof.
  intros [Hv Hl Hs Hw Hu Hi] Hev Hrev. view_eqs Hv.
  destruct ev as [m0 fr rnd|raw rnd|type| |m|n|idx| |]; try done;
    cbn [handlerOf].
  - unfold onGuess, checkAchievements. handler_cases; cbn;
      rewrite ?emitAll_store; cbn; try done.
    all: try (apply reveal_keeps; congruence).
    all: apply array_from_lookup;
      replace (word (guessEnv a)) with (word (store a));
      rewrite <- Hl; by eapply lookup_lt_Some.
  - unfold handlePowerUp. handler_cases; done.
  - handler_cases; done.
  - unfold addPlayer. handler_cases; done.
  - unfold removePlayer. handler_cases; done.
  - handler_cases; done.
  - destruct (toastTimers a); done.
Qed.

Lemma effect_keeps_revealed a i :
  revealed (store a) !! i = Some true ->
  revealed (store (powerUpEffect (store a) a)) !! i = Some true.
Proof.
  intros Hrev. unfold powerUpEffect.
  destruct (powerUp (store a)) as [[]|]; closed_tests; cbn; try done.
  destruct (Js.findIndex negb (revealed (store a))); cbn; [|done].
  by apply array_set_keeps.
Qed.

(** C10.  From a reachable state, no event other than the start of a new
    round or a reset (so: no guess, including the one that loses the round
    and reveals the word, no power-up click, no timeout) turns an entry of
    [revealed] from true back to false. *)
Theorem C10_revealed_monotone evs ev i :
  withinRound ev = true ->
  revealed (store (run evs)) !! i = Some true ->
  revealed (store (step ev (run evs))) !! i = Some true.
Proof.
  intros Hev Hrev. pose proof (run_Inv evs) as HI.
  rewrite step_store. cbn zeta.
  pose proof (handler_keeps_revealed ev _ i HI Hev Hrev) as Hh.
  case_bool_decide; [done|]. by apply effect_keeps_revealed.
Qed.

Lemma C10_revealed_monotone_witness :
  let evs := [StartGame solo (FetchOk "dog" "a loyal pet" None) 1;
              Guess "d" 0; Guess "x" 0; Guess "y" 0; Guess "z" 0;
              Guess "q" 0; Guess "w" 0] in
  revealed (store (run evs)) !! 0%nat = Some true
  /\ revealed (store (step (Guess "v" 0) (run evs))) !! 0%nat = Some true.
Proof.
  cbv zeta. split; [vm_compute; reflexivity|].
  apply C10_revealed_monotone; vm_compute; reflexivity.
Defined.

(** ** Turns in multiplayer mode *)

Lemma guess_settled rnd raw a :
  Inv a -> settled (store (handlerOf (Guess raw rnd) a a)).
Proof.
  intros HI. by apply (handlerOf_Preserves (Guess raw rnd) a HI).
Qed.

Lemma guess_when_not_playing evs raw rnd :
  phase (store (run evs)) ≠ play ->
  step (Guess raw rnd) (run evs) = run evs.
Proof.
  intros Hph. pose proof (run_Inv evs) as HI.
  unfold step. apply commit_skip; [done|]. cbn [handlerOf].
  apply onGuess_ignored. unfold ignored.
  destruct HI as [Hv _ _ _ _ _]. view_eqs Hv.
  rewrite bool_decide_eq_true_2; [done|congruence].
Qed.

(** C7.  Multiplayer play, a letter not guessed before.  With no match the
    turn passes to the next player, cyclically.  With a match the turn
    stays; if that guess completes [revealed], the current player becomes
    the winner, the phase becomes finished, and later guesses change
    nothing, so the index stays frozen. *)
Theorem C7_multiplayer_turns evs raw rnd :
  let a := run evs in
  let s := store a in
  let ch := Js.toLowerCase raw in
  let a' := step (Guess raw rnd) a in
  let s' := store a' in
  mode s = multi -> phase s = play -> players s ≠ [] ->
  guessed s !! ch = None ->
  (matchIndices (word s) ch = [] ->
     currentIdx s' = ((currentIdx s + 1) mod length (players s))%nat
     /\ phase s' = play)
  /\ (matchIndices (word s) ch ≠ [] ->
        currentIdx s' = currentIdx s
        /\ (Js.every (revealed s') = false -> phase s' = play)
        /\ (Js.every (revealed s') = true ->
              winner s' = players s !! currentIdx s
              /\ is_Some (winner s')
              /\ phase s' = finished
              /\ forall raw2 rnd2, step (Guess raw2 rnd2) a' = a')).
Proof.
  intros a s ch a' s' Hmode Hph Hpl Hnew.
  pose proof (run_Inv evs) as HI. fold a in HI.
  pose proof (step_effectFree (Guess raw rnd) a) as Hfree.
  pose proof (step_revealed_settled (Guess raw rnd) a
                (guess_settled rnd raw a HI)) as Hrev.
  fold a' in Hfree, Hrev. fold s' in Hfree, Hrev.
  cbn [handlerOf] in Hfree, Hrev.
  assert (Hfrozen : phase s' = finished ->
            forall raw2 rnd2, step (Guess raw2 rnd2) a' = a').
  { intros Hfin raw2 rnd2.
    change a' with (step (Guess raw rnd) (run evs)). rewrite <- run_app.
    apply guess_when_not_playing. rewrite run_app.
    change (phase s' ≠ play). by rewrite Hfin. }
  destruct HI as [Hv Hl Hs Hw Hu Hi]. fold s in Hl, Hs, Hw, Hu, Hi.
  unfold closureView in Hv. fold s in Hv.
  injection Hv as Emode Epl _ Eph Eidx Ewd Erev _ Egs _ _ _ _ _ _ _.
  assert (Hidx : (currentIdx s < length (players s))%nat).
  { destruct Hi as [-> | ?]; [|done]. destruct (players s); [done|cbn; lia]. }
  assert (Hlen : length (players s) ≠ 0%nat) by lia.
  unfold effectFree in Hfree.
  injection Hfree as _ _ Fph Fidx _ _ _ _ Fwin _ _ _ _ _ _ _ _ _.
  revert Fph Fidx Fwin Hrev.
  unfold onGuess. fold ch.
  rewrite Eph, Ewd, Egs, Emode, Epl, Eidx, Erev.
  rewrite (bool_decide_eq_false_2 (phase s ≠ play)) by (by intros []).
  rewrite (bool_decide_eq_false_2 (word s = "")) by (by apply Hw).
  rewrite (bool_decide_eq_false_2 (is_Some _))
    by (rewrite Hnew; by intros [? ?]).
  rewrite (bool_decide_eq_false_2 (mode s = solo)) by (by rewrite Hmode).
  rewrite (bool_decide_eq_true_2 (length (players s) ≠ 0%nat)) by done.
  cbn [orb]. unfold when, andThen, skip, val.
  destruct (matchIndices (word s) ch) as [|i0 idxs] eqn:Hmatch.
  - cbn. intros Fph Fidx Fwin Hrev. split; [|done]. intros _.
    by rewrite Fph, Fidx.
  - cbn [length Nat.ltb Nat.leb].
    set (newRev := fold_left _ _ _).
    destruct (Js.every newRev) eqn:Hall; cbn -[fold_left step];
      intros Fph Fidx Fwin Hrev; fold newRev in Hrev.
    + split; [done|]. intros _. split; [done|].
      rewrite Hrev. split; [congruence|]. intros _.
      assert (Hw' : winner s' = players s !! currentIdx s).
      { rewrite Fwin. unfold winnerName.
        destruct (lookup_lt_is_Some_2 _ _ Hidx) as [p Hp]. by rewrite Hp. }
      split; [done|]. split.
      { rewrite Hw'. by apply lookup_lt_is_Some_2. }
      split; [done|]. by apply Hfrozen.
    + split; [done|]. intros _. split; [done|].
      rewrite Hrev. split; [intros _; by rewrite Fph|]. congruence.
Qed.

Lemma C7_multiplayer_turns_witness :
  let evs := [SetModeClick multi; AddPlayerClick "ann"; AddPlayerClick "bob";
              AddPlayerClick "cy"; StartGame multi FetchThrew 0] in
  currentIdx (store (run evs)) = 0%nat
  /\ currentIdx (store (step (Guess "z" 0) (run evs))) = 1%nat
  /\ currentIdx (store (step (Guess "l" 0) (run (evs ++ [Guess "z" 0]))))
     = 1%nat.
Proof.
  cbv zeta. split; [vm_compute; reflexivity|]. split.
  - refine (proj1 (proj1 (C7_multiplayer_turns
      [SetModeClick multi; AddPlayerClick "ann"; AddPlayerClick "bob";
       AddPlayerClick "cy"; StartGame multi FetchThrew 0%nat]
      "z"%char 0%nat _ _ _ _) _)); vm_compute; done.
  - refine (proj1 (proj2 (C7_multiplayer_turns
      ([SetModeClick multi; AddPlayerClick "ann"; AddPlayerClick "bob";
        AddPlayerClick "cy"; StartGame multi FetchThrew 0%nat]
       ++ [Guess "z"%char 0%nat])
      "l"%char 0%nat _ _ _ _) _)); vm_compute; done.
Defined.

(** ** Solved rounds *)

Lemma RoundInv_view s s' : roundView s = roundView s' -> RoundInv s -> RoundInv s'.
Proof.
  unfold roundView. intros Hv [H1 H2 H3]. injection Hv as E1 E2 E3 E4 E5.
  split; rewrite <- ?E1, <- ?E2, <- ?E3, <- ?E4, <- ?E5; done.
Qed.

Lemma string_length_pos w : w ≠ "" -> (0 < String.length w)%nat.
Proof. destruct w; [done|]. intros _. unfold String.length. lia. Qed.

Lemma every_array_from_false n : (0 < n)%nat -> Js.every (Js.array_from n false) = false.
Proof. destruct n; [lia|done]. Qed.

Lemma every_array_from_true n : Js.every (Js.array_from n true) = true.
Proof.
  apply every_true. intros b Hb. unfold Js.array_from in Hb.
  by apply elem_of_replicate in Hb as [-> _].
Qed.

Lemma powerUpEffect_revealed_other r a :
  powerUp r ≠ Some revealLetter ->
  revealed (store (powerUpEffect r a)) = revealed (store a).
Proof.
  intros Hp. unfold powerUpEffect.
  destruct (powerUp r) as [[]|]; closed_tests; done.
Qed.

Lemma handler_powerUp ev a :
  isRevealClick ev = false -> settled (store a) ->
  powerUp (store (handlerOf ev a a)) ≠ Some revealLetter.
Proof.
  intros Hev Hs.
  assert (Hp : powerUp (store a) ≠ Some revealLetter)
    by (destruct Hs as [-> | ->]; done).
  destruct ev as [m0 fr rnd|raw rnd|type| |m|n|idx| |]; cbn [handlerOf].
  - unfold startGame. destruct fr; handler_cases; done.
  - unfold onGuess, checkAchievements. handler_cases; cbn;
      rewrite ?emitAll_store; done.
  - destruct type; try done; unfold handlePowerUp; handler_cases; done.
  - unfold resetClick. handler_cases; done.
  - handler_cases; done.
  - unfold addPlayer. handler_cases; done.
  - unfold removePlayer. handler_cases; done.
  - handler_cases; done.
  - destruct (toastTimers a); done.
Qed.

Lemma step_roundView ev a :
  isRevealClick ev = false -> Inv a ->
  roundView (store (step ev a)) = roundView (store (handlerOf ev a a)).
Proof.
  intros Hev [_ _ Hs _ _ _].
  pose proof (step_effectFree ev a) as Hfree. unfold effectFree in Hfree.
  injection Hfree as Emode _ Eph _ _ _ _ _ Ewin Eres _ _ _ _ _ _ _ _.
  unfold roundView. rewrite Eph, Emode, Eres, Ewin. f_equal.
  rewrite step_store. cbn zeta. case_bool_decide; [done|].
  apply powerUpEffect_revealed_other. by apply handler_powerUp.
Qed.

Lemma handler_RoundInv ev a :
  Inv a -> RoundInv (store a) -> RoundInv (store (handlerOf ev a a)).
Proof.
  intros [Hv Hl Hs Hw Hu Hi] [H1 H2 H3]. view_eqs Hv.
  destruct ev as [m0 fr rnd|raw rnd|type| |m|n|idx| |]; cbn [handlerOf].
  - unfold startGame. destruct fr; handler_cases.
    all: simplify_eq.
    all: split; cbn; try done.
    all: intros _; split; [done|]; split; [done|].
    all: apply every_array_from_false; try (vm_compute; lia).
    all: apply string_length_pos; by apply lowerString_nonempty.
  - destruct (ignored raw (guessEnv a)) eqn:Hig.
    { rewrite onGuess_ignored by done. by split. }
    assert (Hph : phase (store a) = play).
    { unfold ignored in Hig. apply orb_false_iff in Hig as [Hig _].
      apply orb_false_iff in Hig as [Hig _].
      apply bool_decide_eq_false in Hig. apply dec_stable in Hig. congruence. }
    destruct (H2 Hph) as (Hres & Hwin & Hevery). clear H1 H2 H3 Hig.
    assert (Hmode : mode (guessEnv a) ≠ solo -> mode (store a) = multi)
      by (destruct (mode (guessEnv a)), (mode (store a)); done).
    unfold onGuess, checkAchievements. handler_cases.
    all: split; cbn; rewrite ?emitAll_store; cbn;
      rewrite ?every_array_from_true.
    all: try congruence.
    all: intros _.
    all: try (split; [congruence|]).
    all: try (split; [congruence|]).
    all: try congruence.
    all: try (left; repeat split; try congruence; by auto).
    all: right; repeat split; try congruence; auto.
  - unfold handlePowerUp. handler_cases; by split.
  - unfold resetClick. handler_cases; by split.
  - handler_cases; [|by split].
    split; cbn; try done.
    all: intros Hph; congruence.
  - unfold addPlayer. handler_cases; by split.
  - unfold removePlayer. handler_cases; by split.
  - handler_cases; by split.
  - destruct (toastTimers a); by split.
Qed.

Lemma run_RoundInv evs :
  forallb (fun ev => negb (isRevealClick ev)) evs = true ->
  RoundInv (store (run evs)).
Proof.
  induction evs as [|ev evs IH] using rev_ind; intros Hevs.
  { split; done. }
  rewrite forallb_app in Hevs. apply andb_true_iff in Hevs as [Hevs Hev].
  cbn in Hev. rewrite andb_true_r in Hev. apply negb_true_iff in Hev.
  rewrite run_app. pose proof (run_Inv evs) as HI.
  eapply RoundInv_view; [symmetry; by apply step_roundView|].
  apply handler_RoundInv; [done|by apply IH].
Qed.

(** C3 (as amended).  In every state reached without a Reveal Letter
    click and outside set-up, the round is solved exactly when every entry
    of [revealed] is true and the round was not lost.  It holds of every
    such state, so in particular of the state right after the guess that
    makes the last entry true. *)
Theorem C3_solved_iff_all_revealed evs :
  let s := store (run evs) in
  forallb (fun ev => negb (isRevealClick ev)) evs = true ->
  phase s ≠ setup ->
  solved s <-> Js.every (revealed s) = true /\ result s ≠ Some lose.
Proof.
  intros s Hevs Hph. destruct (run_RoundInv evs Hevs) as [_ H2 H3].
  fold s in H2, H3. unfold solved.
  destruct (phase s) eqn:Ephase; [done| |].
  - destruct (H2 eq_refl) as (_ & _ & Hev). rewrite Hev.
    split; intros [? _]; done.
  - destruct (H3 eq_refl) as (Hev & [(Hm & Hw & Hr)|(Hm & Hr & Hw)]);
      rewrite Hm, Hev.
    + split.
      * intros [_ ->]. done.
      * intros [_ Hnl]. split; [done|]. by destruct Hr.
    + split; [|done]. intros _. by rewrite Hr.
Qed.

Lemma C3_solved_iff_all_revealed_witness :
  let evs := [StartGame solo (FetchOk "go" "to move" None) 0;
              Guess "g" 0; Guess "o" 0] in
  solved (store (run evs))
  <-> Js.every (revealed (store (run evs))) = true
      /\ result (store (run evs)) ≠ Some lose.
Proof.
  cbv zeta. apply C3_solved_iff_all_revealed; [vm_compute; reflexivity|].
  vm_compute. discriminate.
Defined.

(** C3 (as stated) fails: after the sixth wrong guess on "dog" every entry
    of [revealed] is true, yet the round is lost, not solved. *)
Lemma C3_counterexample_lost_round :
  let s := store (run [StartGame solo (FetchOk "dog" "a loyal pet" None) 0;
                       Guess "a" 0; Guess "b" 0; Guess "c" 0; Guess "e" 0;
                       Guess "f" 0; Guess "h" 0]) in
  ~ (solved s <-> Js.every (revealed s) = true).
Proof.
  intros s [_ Hback].
  assert (Hall : Js.every (revealed s) = true) by (vm_compute; reflexivity).
  assert (Hmode : mode s = solo) by (vm_compute; reflexivity).
  assert (Hres : result s = Some lose) by (vm_compute; reflexivity).
  destruct (Hback Hall) as [_ Hwin]. rewrite Hmode, Hres in Hwin.
  discriminate.
Qed.

(** The Reveal Letter effect does not look for a solved round: revealing
    the last position of "a" leaves the phase at play with no result, and
    the round is only declared won by the next correct guess. *)
Lemma revealLetter_last_position_not_solved :
  let evs := [StartGame solo (FetchOk "a" "first letter" None) 1;
              PowerUpClick revealLetter] in
  let s := store (run evs) in
  revealed s = [true] /\ phase s = play /\ result s = None
  /\ solved (store (step (Guess "a" 0) (run evs))).
Proof. cbv zeta. unfold solved. evaluate. Qed.

(** ** Reset *)

(** C6 (as amended).  Where the Reset button is shown, a click returns to
    set-up and clears the round (word, display, meaning, revealed,
    guessed, winner, result), the players, the turn index, the available
    power-ups, score and streak, and sets lives back to [MAX_LIVES]; the
    unlocked achievements and the number of completed words are kept, and
    the usage counters are not cleared. *)
Theorem C6_reset_clears_round_and_score evs :
  let s := store (run evs) in
  let s' := store (step ResetClick (run evs)) in
  phase s ≠ setup ->
  (phase s' = setup /\ players s' = [] /\ guessed s' = ∅ /\ revealed s' = []
   /\ winner s' = None /\ result s' = None /\ word s' = ""
   /\ meaning s' = "" /\ displayRaw s' = "" /\ currentIdx s' = 0%nat
   /\ lives s' = MAX_LIVES /\ availablePowerUps s' = [] /\ score s' = 0
   /\ streak s' = 0)
  /\ (achievements s' = achievements s
      /\ wordsCompleted s' = wordsCompleted s
      /\ powerUpsUsed s <= powerUpsUsed s'
      /\ doublePointsUsed s <= doublePointsUsed s'
      /\ revealLetterUsed s <= revealLetterUsed s').
Proof.
  cbv zeta. pose proof (run_Inv evs) as [_ _ Hs _ _ _].
  revert Hs. generalize (run evs). intros a Hs Hph.
  rewrite step_store. cbn zeta. cbn [handlerOf].
  rewrite (bool_decide_eq_true_2 (phase (store a) ≠ setup)) by done.
  unfold when, resetClick, andThen, val. cbn.
  case_bool_decide as Hd; cbn.
  { repeat split; done || lia. }
  unfold powerUpEffect. cbn.
  destruct Hs as [Hs|Hs]; rewrite Hs; closed_tests; cbn; repeat split;
    done || lia.
Qed.

Lemma C6_reset_clears_round_and_score_witness :
  let evs := [StartGame solo (FetchOk "cat" "a small pet" None) 0;
              PowerUpClick doublePoints; Guess "c" 0; Guess "x" 0] in
  let s' := store (step ResetClick (run evs)) in
  phase s' = setup /\ score s' = 0 /\ lives s' = MAX_LIVES
  /\ word s' = "" /\ revealed s' = [] /\ guessed s' = ∅.
Proof.
  cbv zeta.
  destruct (C6_reset_clears_round_and_score
    [StartGame solo (FetchOk "cat" "a small pet" None) 0%nat;
     PowerUpClick doublePoints; Guess "c"%char 0%nat; Guess "x"%char 0%nat])
    as [(H1 & H2 & H3 & H4 & H5 & H6 & H7 & H8 & H9 & H10 & H11 & H12 & H13
         & H14) _].
  - vm_compute. discriminate.
  - repeat split; assumption.
Defined.

(** C6 (as stated) fails: the usage counters survive a reset.  After one
    Extra Life was used, [powerUpsUsed] is 1 before and after the click on
    Reset, while everything the handler names is back to its initial
    value. *)
Lemma C6_counterexample_counters_survive :
  let evs := [StartGame solo (FetchOk "cat" "a small pet" None) 2;
              PowerUpClick extraLife] in
  powerUpsUsed (store (run evs)) = 1
  /\ powerUpsUsed (store (step ResetClick (run evs))) = 1
  /\ powerUpsUsed initStore = 0
  /\ phase (store (step ResetClick (run evs))) = setup.
Proof. cbv zeta. evaluate. Qed.

(** [perfectStreak] is not among the hooks that the Reset handler writes
    either, unlike [streak]. *)
Lemma reset_keeps_perfectStreak :
  let evs := [StartGame solo (FetchOk "go" "to move" None) 0;
              Guess "g" 0; Guess "o" 0] in
  perfectStreak (store (run evs)) = 1
  /\ streak (store (run evs)) = 1
  /\ perfectStreak (store (step ResetClick (run evs))) = 1
  /\ streak (store (step ResetClick (run evs))) = 0.
Proof. cbv zeta. evaluate. Qed.

(** ** Solo scoring *)

(** The score after a correct solo guess of a new letter.  The guess that
    completes [revealed] overwrites the pending [+10] per letter with the
    score of the previous render plus the bonus; [scoreMultiplier] is read
    nowhere. *)
Lemma solo_correct_guess_score evs raw rnd :
  let s := store (run evs) in
  let ch := Js.toLowerCase raw in
  let s' := store (step (Guess raw rnd) (run evs)) in
  mode s = solo -> phase s = play -> guessed s !! ch = None ->
  matchIndices (word s) ch ≠ [] ->
  score s' =
    if Js.every (revealed s') then
      score s + 20 * lives s
      + (if bool_decide (wrongGuesses (guessed s) = 0%nat) then 100 else 0)
    else score s + 10 * Z.of_nat (length (matchIndices (word s) ch)).
Proof.
  cbv zeta. pose proof (run_Inv evs) as HI. revert HI.
  generalize (run evs). intros a HI Hmode Hph Hnew Hmatch.
  pose proof (step_effectFree (Guess raw rnd) a) as Hfree.
  pose proof (step_revealed_settled (Guess raw rnd) a
                (guess_settled rnd raw a HI)) as Hrev.
  cbn [handlerOf] in Hfree, Hrev. rewrite Hrev.
  unfold effectFree in Hfree.
  injection Hfree as _ _ _ _ _ _ _ _ _ _ _ Fscore _ _ _ _ _ _.
  rewrite Fscore. clear Fscore Hrev.
  destruct HI as [Hv Hl Hs Hw Hu Hi]. unfold closureView in Hv.
  injection Hv as Emode _ _ Eph _ Ewd Erev _ Egs _ Elives Escore _ _ _ _.
  unfold onGuess.
  rewrite Eph, Ewd, Egs, Emode, Erev, Elives, Escore.
  rewrite (bool_decide_eq_false_2 (phase _ ≠ play)) by (by intros []).
  rewrite (bool_decide_eq_false_2 (word _ = "")) by (by apply Hw).
  rewrite (bool_decide_eq_false_2 (is_Some _))
    by (rewrite Hnew; by intros [? ?]).
  rewrite (bool_decide_eq_true_2 (mode _ = solo)) by done.
  cbn [orb]. unfold checkAchievements. unfold when, andThen, skip, val.
  destruct (matchIndices (word (store a)) (Js.toLowerCase raw))
    as [|i0 idxs] eqn:Hm; [done|].
  cbn [length Nat.ltb Nat.leb].
  set (newRev := fold_left _ _ _).
  match goal with
  | |- context [Js.every (revealed ?X)] =>
      assert (revealed X = newRev) as ->
        by (unfold emit; repeat case_match; cbn -[fold_left];
            rewrite ?emitAll_store; cbn -[fold_left]; done)
  end.
  destruct (Js.every newRev) eqn:Hall.
  - unfold emit. repeat case_match; cbn -[fold_left]; rewrite ?emitAll_store;
      cbn -[fold_left]; lia.
  - cbn -[fold_left Z.of_nat]. done.
Qed.

(** C1.  With Double Points active ([scoreMultiplier] is 2 and its timeout
    is pending), guessing "o" in "book" matches two positions and adds 20
    to the score, not 40. *)
Theorem C1_double_points_not_applied :
  let evs := [StartGame solo (FetchOk "book" "bound pages" None) 0;
              PowerUpClick doublePoints] in
  let s := store (run evs) in
  let s' := store (step (Guess "o" 0) (run evs)) in
  scoreMultiplier s = 2 /\ multiplierTimer (run evs) = true
  /\ matchIndices (word s) "o" = [1; 2]%nat
  /\ phase s' = play /\ score s' - score s = 20.
Proof. cbv zeta. evaluate. Qed.

(** C2.  The round "cat" guessed "c", "a", "t" with six lives and
    multiplier 1 ends won with a perfect streak of 1 and a score of 240:
    the 20 points of the first two letters, the bonus of 120 and the 100
    of a perfect game.  The 10 points of the solving letter are queued and
    then overwritten. *)
Theorem C2_cat_round_scores_240 :
  let evs := [StartGame solo (FetchOk "cat" "a small pet" None) 0;
              Guess "c" 0; Guess "a" 0] in
  let s := store (run evs) in
  let s' := store (step (Guess "t" 0) (run evs)) in
  (lives s = 6 /\ scoreMultiplier s = 1 /\ score s = 20)
  /\ (result s' = Some win /\ lives s' = 6 /\ perfectStreak s' = 1
      /\ score s' = 240).
Proof. cbv zeta. evaluate. Qed.

(** ** Achievements *)

Lemma push_not_in cond id acc x :
  x ≠ id -> x ∉ acc -> x ∉ push cond id acc.
Proof.
  intros Hne Hacc. unfold push. destruct cond; [|done].
  rewrite elem_of_app, list_elem_of_singleton. by intros [?|?].
Qed.

(** [checkAchievements] never pushes [comeback]. *)
Lemma newAchievements_no_comeback e gameData :
  comeback ∉ newAchievements e gameData.
Proof.
  unfold newAchievements. cbv zeta.
  repeat match goal with
         | |- _ ∉ push _ _ _ => apply push_not_in; [done|]
         | |- _ ∉ (if ?b then _ else _) => destruct b
         | |- _ ∉ [] => apply not_elem_of_nil
         end.
Qed.

(** What [checkAchievements] does with the identifiers it collected: all
    of them are appended to [achievements] and sent to [saveAchievement],
    the first one is shown. *)
Lemma checkAchievements_spec e gameData a :
  let new := newAchievements e gameData in
  let a' := checkAchievements e gameData a in
  achievements (store a') = achievements (store a) ++ new
  /\ calls a' = calls a ++ (SaveAchievement <$> new)
  /\ (new ≠ [] -> showAchievement (store a') = head new).
Proof.
  cbv zeta. unfold checkAchievements, when, andThen, val.
  destruct (newAchievements e gameData) as [|id new]; cbn.
  - by rewrite !app_nil_r.
  - rewrite emitAll_store, emitAll_calls. done.
Qed.

(** C4.  [comeback] is never among the achievements that a round end
    unlocks.  In the round "hi" the player goes down to one life and then
    wins; the round end unlocks [firstWin] and [survivor] only. *)
Theorem C4_comeback_never_unlocked :
  (forall e gameData, comeback ∉ newAchievements e gameData)
  /\ (let evs := [StartGame solo (FetchOk "hi" "a greeting" None) 0;
                  Guess "a" 0; Guess "b" 0; Guess "c" 0; Guess "d" 0;
                  Guess "e" 0; Guess "h" 0] in
      let s := store (run evs) in
      let a' := step (Guess "i" 0) (run evs) in
      lives s = 1 /\ phase s = play
      /\ result (store a') = Some win
      /\ achievements (store a') = [firstWin; survivor]
      /\ showAchievement (store a') = Some firstWin
      /\ calls a' = [SaveAchievement firstWin; SaveAchievement survivor;
                     SaveScore 30 1]).
Proof.
  split; [apply newAchievements_no_comeback|]. cbv zeta. evaluate.
Qed.

(** ** Power-up activation *)

(** No button, no activation: a click for a kind that is not available,
    or outside solo play, changes nothing. *)
Lemma powerUp_click_absent evs type :
  type ∉ availablePowerUps (store (run evs)) ->
  step (PowerUpClick type) (run evs) = run evs.
Proof.
  intros Hnot. unfold step. apply commit_skip; [apply run_Inv|].
  cbn [handlerOf]. rewrite (bool_decide_eq_false_2 (_ ∈ _)) by done.
  by rewrite andb_false_r.
Qed.

(** A click on a shown button removes the kind from [availablePowerUps]. *)
Lemma powerUp_click_removes evs type :
  let s := store (run evs) in
  let s' := store (step (PowerUpClick type) (run evs)) in
  phase s = play -> mode s = solo -> type ∈ availablePowerUps s ->
  availablePowerUps s' = filter (fun p => p ≠ type) (availablePowerUps s)
  /\ type ∉ availablePowerUps s'.
Proof.
  cbv zeta. generalize (run evs). intros a Hph Hmode Hin.
  pose proof (step_effectFree (PowerUpClick type) a) as Hfree.
  unfold effectFree in Hfree.
  injection Hfree as _ _ _ _ _ _ _ _ _ _ _ _ _ _ _ _ _ Fav.
  rewrite Fav. cbn [handlerOf].
  rewrite (bool_decide_eq_true_2 (phase _ = play)),
    (bool_decide_eq_true_2 (mode _ ≠ multi)),
    (bool_decide_eq_true_2 (_ ∈ _)) by (done || by rewrite Hmode).
  cbn. split; [done|]. unfold val. rewrite list_elem_of_filter.
  by intros [? _].
Qed.

(** C5.  One activation of Double Points, then two guesses: the usage
    counters stand at 3.  The effect's [doublePoints] branch returns
    before [setPowerUp(null)], so the effect runs again, and counts again,
    whenever [revealed] or [lives] changes. *)
Theorem C5_double_points_counted_again :
  let evs := [StartGame solo (FetchOk "cat" "a small pet" None) 0] in
  let a0 := run evs in
  let a1 := step (PowerUpClick doublePoints) a0 in
  let a2 := step (Guess "c" 0) a1 in
  let a3 := step (Guess "x" 0) a2 in
  availablePowerUps (store a0) = [doublePoints]
  /\ (availablePowerUps (store a1) = []
      /\ doublePointsUsed (store a1) = 1 /\ powerUpsUsed (store a1) = 1)
  /\ (powerUp (store a2) = Some doublePoints
      /\ doublePointsUsed (store a2) = 2 /\ powerUpsUsed (store a2) = 2)
  /\ (doublePointsUsed (store a3) = 3 /\ powerUpsUsed (store a3) = 3).
Proof. cbv zeta. evaluate. Qed.

(** The other two kinds are counted once: the effect clears [powerUp]
    after them. *)
Lemma revealLetter_counted_once :
  let evs := [StartGame solo (FetchOk "cat" "a small pet" None) 1] in
  let a1 := step (PowerUpClick revealLetter) (run evs) in
  let a2 := step (Guess "a" 0) a1 in
  powerUp (store a1) = None
  /\ revealLetterUsed (store a1) = 1 /\ powerUpsUsed (store a1) = 1
  /\ revealLetterUsed (store a2) = 1 /\ powerUpsUsed (store a2) = 1.
Proof. cbv zeta. evaluate. Qed.

(** While [powerUp] is still ['doublePoints'] from an earlier round, a click
    on a new Double Points button stores the same value: the effect does
    not run and the click is not counted. *)
Lemma doublePoints_second_click_not_counted :
  let evs := [StartGame solo (FetchOk "go" "to move" None) 0;
              PowerUpClick doublePoints; Guess "g" 0; Guess "o" 0;
              StartGame solo (FetchOk "up" "not down" None) 0] in
  let a := run evs in
  let a' := step (PowerUpClick doublePoints) a in
  availablePowerUps (store a) = [doublePoints]
  /\ availablePowerUps (store a') = []
  /\ doublePointsUsed (store a) = 4
  /\ doublePointsUsed (store a') = 4.
Proof. cbv zeta. evaluate. Qed.
